(** * iWorkConverter: the Box batch pipeline of [main.go]

    A shallow embedding of the retrieval / conversion / reporting pipeline
    ([GetIWorkFiles], [DownloadFile], [ConvertIWorkFile],
    [SaveFileWithMetadata], [ProcessFolder], [GenerateReport] and the Box
    branch of [main]) together with the properties of the specification
    that were checked against it.

    Go strings are byte sequences and are modelled by [string]; [int] and
    [int64] values are modelled by [Z].  The local file system is a finite
    map from paths to contents.  Everything outside the program (the HTTP
    server, the two converters, the clock, faults of the operating system)
    is gathered in a record [Env] of oracles that the code consults. *)

From Stdlib Require Import ZArith Ascii String Lia.
From stdpp Require Import gmap strings list.

Local Open Scope Z_scope.

(** ** Go string primitives *)

Module Str.

Definition slash : ascii := "/"%char.
Definition dot : ascii := "."%char.
Definition newline : ascii := "010"%char.

(** The one-byte string written [backslash n] in Go source. *)
Definition nl : string := String newline "".

(** [strings.Repeat] *)
Fixpoint Repeat (s : string) (count : nat) : string :=
  match count with
  | O => ""
  | S n => s +:+ Repeat s n
  end.

(** [strings.ToLower], on ASCII input: each byte in ['A'..'Z'] is moved to
    ['a'..'z'], every other byte is kept.  (Go also maps upper-case runes
    outside ASCII; names with such runes are outside this model.) *)
Definition lowerByte (c : ascii) : ascii :=
  let n := nat_of_ascii c in
  if ((65 <=? n) && (n <=? 90))%nat then ascii_of_nat (n + 32) else c.

Fixpoint ToLower (s : string) : string :=
  match s with
  | EmptyString => EmptyString
  | String c r => String (lowerByte c) (ToLower r)
  end.

(** [s] with the suffix [suffix] removed, when [s] ends with it. *)
Fixpoint cutSuffix (s suffix : string) : option string :=
  if String.eqb s suffix then Some ""
  else match s with
       | EmptyString => None
       | String c r => String c <$> cutSuffix r suffix
       end.

(** [strings.TrimSuffix] *)
Definition TrimSuffix (s suffix : string) : string :=
  default s (cutSuffix s suffix).

(** [strings.Join] *)
Fixpoint Join (elems : list string) (sep : string) : string :=
  match elems with
  | [] => ""
  | [e] => e
  | e :: rest => e +:+ sep +:+ Join rest sep
  end.

(** The pieces of [s] between occurrences of the byte [sep]. *)
Fixpoint split (sep : ascii) (s : string) : list string :=
  match s with
  | EmptyString => [""]
  | String c r =>
      if Ascii.eqb c sep then "" :: split sep r
      else match split sep r with
           | h :: t => String c h :: t
           | [] => [String c ""]
           end
  end.

(** Does the byte [c] occur in [s]? *)
Fixpoint contains (c : ascii) (s : string) : bool :=
  match s with
  | EmptyString => false
  | String d r => Ascii.eqb d c || contains c r
  end.

(** The text of [s] up to its first newline, and what follows it. *)
Fixpoint cutLine (s : string) : option (string * string) :=
  match s with
  | EmptyString => None
  | String c r =>
      if Ascii.eqb c newline then Some ("", r)
      else match cutLine r with
           | Some (l, rest) => Some (String c l, rest)
           | None => None
           end
  end.

(** The first [n] lines of [s] and the text after them. *)
Fixpoint cutLines (n : nat) (s : string) : option (list string * string) :=
  match n with
  | O => Some ([], s)
  | S k =>
      match cutLine s with
      | Some (l, rest) =>
          match cutLines k rest with
          | Some (ls, tl) => Some (l :: ls, tl)
          | None => None
          end
      | None => None
      end
  end.

(** Decimal digits of a non-negative number, most significant first;
    [fuel] bounds the number of digits (20 covers every [int64]). *)
Definition digit (d : Z) : ascii := ascii_of_nat (48 + Z.to_nat d).

Fixpoint digits (fuel : nat) (u : Z) (acc : string) : string :=
  match fuel with
  | O => acc
  | S f =>
      let acc' := String (digit (u mod 10)) acc in
      if u / 10 =? 0 then acc' else digits f (u / 10) acc'
  end.

(** [strconv.Itoa], the [%d] verb of [fmt]. *)
Definition Itoa (x : Z) : string :=
  if x <? 0 then String "-" (digits 20 (- x) "") else digits 20 x "".

(** [appendInt] of package [time]: decimal with zero padding to [width]. *)
Definition padInt (x : Z) (width : nat) : string :=
  let body := digits 20 (Z.abs x) "" in
  let pad := Repeat "0" (width - String.length body) in
  if x <? 0 then String "-" (pad +:+ body) else pad +:+ body.

End Str.

(** ** Paths: [path/filepath] on a Unix system *)

Module filepath.

(** [filepath.Ext]: the loop walks from the last byte towards the first,
    stops at a separator, and returns the suffix from the first dot met. *)
Fixpoint extScan (rev_path : list ascii) (suffix : string) : string :=
  match rev_path with
  | [] => ""
  | c :: before =>
      if Ascii.eqb c Str.slash then ""
      else if Ascii.eqb c Str.dot then String c suffix
      else extScan before (String c suffix)
  end.

Definition Ext (path : string) : string :=
  extScan (rev (list_ascii_of_string path)) "".

(** [filepath.Clean], element by element: the stack holds the elements
    written so far, last one first. *)
Definition cleanStep (rooted : bool) (stack : list string) (elem : string)
  : list string :=
  if String.eqb elem "" then stack
  else if String.eqb elem "." then stack
  else if String.eqb elem ".." then
    match stack with
    | top :: below =>
        if String.eqb top ".." then (if rooted then stack else elem :: stack)
        else below
    | [] => if rooted then [] else [elem]
    end
  else elem :: stack.

Definition Clean (path : string) : string :=
  match path with
  | EmptyString => "."
  | String c _ =>
      let rooted := Ascii.eqb c Str.slash in
      let stack := fold_left (cleanStep rooted) (Str.split Str.slash path) [] in
      let body := Str.Join (rev stack) "/" in
      if rooted then "/" +:+ body
      else match stack with [] => "." | _ => body end
  end.

(** [filepath.Join]: leading empty elements are dropped, the rest is
    joined with the separator and cleaned. *)
Fixpoint Join (elem : list string) : string :=
  match elem with
  | [] => ""
  | e :: rest =>
      if String.eqb e "" then Join rest else Clean (Str.Join elem "/")
  end.

End filepath.

(** ** Go error values *)

(** An error is what [errors.New] / [fmt.Errorf] build, or a value handed
    over by a library ([net/http], [os], the converters).  [fmt.Errorf]
    with a [%w] verb keeps the wrapped error next to the formatted text. *)
Inductive error : Type :=
| errorString (text : string)
| wrapError (text : string) (wrapped : error)
| libError (text : string).

(** The [Error()] method. *)
Definition Error (e : error) : string :=
  match e with
  | errorString t => t
  | wrapError t _ => t
  | libError t => t
  end.

(** [errors.Unwrap] *)
Definition Unwrap (e : error) : option error :=
  match e with
  | wrapError _ w => Some w
  | _ => None
  end.

(** [fmt.Errorf(prefix + "%s", text)] and [fmt.Errorf(prefix + "%w", err)] *)
Definition Errorf_s (prefix text : string) : error :=
  errorString (prefix +:+ text).

Definition Errorf_w (prefix : string) (err : error) : error :=
  wrapError (prefix +:+ Error err) err.

(** ** Package [time] *)

Module time.

(** An instant: seconds and nanoseconds since the Unix epoch, and the
    offset of its zone east of UTC in seconds. *)
Record Time : Type := mkTime { sec : Z; nsec : Z; offset : Z }.

(** The zero value of [time.Time]: January 1, year 1, 00:00:00 UTC. *)
Definition zero : Time := mkTime (-62135596800) 0 0.

(** A [time.Duration] is an [int64] count of nanoseconds. *)
Definition maxDuration : Z := 2 ^ 63 - 1.
Definition minDuration : Z := - 2 ^ 63.

(** [t.Sub(u)], saturating at the bounds of [Duration]. *)
Definition Sub (t u : Time) : Z :=
  let d := (sec t - sec u) * 1000000000 + (nsec t - nsec u) in
  if d <? minDuration then minDuration
  else if maxDuration <? d then maxDuration
  else d.

(** Year, month and day of a count of days since 1970-01-01 in the
    proleptic Gregorian calendar. *)
Definition civil (days : Z) : Z * Z * Z :=
  let z := days + 719468 in
  let era := z / 146097 in
  let doe := z - era * 146097 in
  let yoe := (doe - doe / 1460 + doe / 36524 - doe / 146096) / 365 in
  let doy := doe - (365 * yoe + yoe / 4 - yoe / 100) in
  let mp := (5 * doy + 2) / 153 in
  let d := doy - (153 * mp + 2) / 5 + 1 in
  let m := if mp <? 10 then mp + 3 else mp - 9 in
  let y := yoe + era * 400 + (if m <=? 2 then 1 else 0) in
  (y, m, d).

Definition date (t : Time) : Z * Z * Z := civil ((sec t + offset t) / 86400).
Definition clock (t : Time) : Z * Z * Z :=
  let s := (sec t + offset t) mod 86400 in
  (s / 3600, (s mod 3600) / 60, s mod 60).

(** The zone suffix [Z07:00]. *)
Definition zone (t : Time) : string :=
  if offset t =? 0 then "Z"
  else
    let m := Z.quot (offset t) 60 in
    (if m <? 0 then "-" else "+")
      +:+ Str.padInt (Z.abs m / 60) 2 +:+ ":" +:+ Str.padInt (Z.abs m mod 60) 2.

(** [t.Format(time.RFC3339)], layout [2006-01-02T15:04:05Z07:00]. *)
Definition FormatRFC3339 (t : Time) : string :=
  let '(y, mo, d) := date t in
  let '(h, mi, s) := clock t in
  Str.padInt y 4 +:+ "-" +:+ Str.padInt mo 2 +:+ "-" +:+ Str.padInt d 2
    +:+ "T" +:+ Str.padInt h 2 +:+ ":" +:+ Str.padInt mi 2 +:+ ":"
    +:+ Str.padInt s 2 +:+ zone t.

(** [t.Format("20060102_150405")] *)
Definition FormatStamp (t : Time) : string :=
  let '(y, mo, d) := date t in
  let '(h, mi, s) := clock t in
  Str.padInt y 4 +:+ Str.padInt mo 2 +:+ Str.padInt d 2 +:+ "_"
    +:+ Str.padInt h 2 +:+ Str.padInt mi 2 +:+ Str.padInt s 2.

End time.

(** ** Data model of [main.go] *)

Record BoxConfig : Type := {
  AccessToken : string;
  BaseURL : string;
  FolderID : string
}.

Record FileInfo : Type := {
  ID : string;
  Name : string;
  Size : Z;
  Extension : string;
  ModifiedAt : time.Time
}.

Record ProcessedFile : Type := {
  OriginalFile : string;
  OutputPath : string;
  FileSize : Z;
  ProcessTime : string
}.

Record ProcessingSummary : Type := {
  TotalFiles : Z;
  Successful : Z;
  Failed : Z;
  Errors : list string;
  ProcessedFiles : list ProcessedFile;
  StartTime : time.Time;
  EndTime : time.Time;
  Duration : Z
}.

(** The [http.Client] of a [BoxClient] lives in the environment. *)
Record BoxClient : Type := { config : BoxConfig }.

Record IWorkProcessor : Type := {
  boxClient : BoxClient;
  tempDir : string;
  outputDir : string;
  format : string
}.

(** One element of the [entries] array decoded in [GetIWorkFiles]. *)
Record Entry : Type := {
  entryID : string;
  entryName : string;
  entryType : string;
  entrySize : Z;
  entryModifiedAt : time.Time
}.

(** ** The outside world *)

Record Request : Type := {
  Method : string;
  URL : string;
  Header : list (string * string)
}.

(** A response: status code, status text, the bytes its body delivers and
    the error, if any, that ends the body instead of a clean end of file. *)
Record Response : Type := {
  StatusCode : Z;
  Status : string;
  Body : string;
  BodyErr : option error
}.

(** What a converter did: the bytes it left at the output path, if it wrote
    that file, and the error it returned. *)
Record Converted : Type := {
  written : option string;
  convErr : option error
}.

(** How a write to a file can go wrong: the file cannot be opened, or the
    write stops after some bytes. *)
Inductive WriteFault : Type :=
| OpenFails (e : error)
| WriteFails (done : nat) (e : error).

(** The oracles.  Those with a first argument of type [nat] are asked at
    most once per value of it: the argument is the number of calls to the
    outside made before (see [tick]). *)
Record Env : Type := {
  NewRequest : string -> string -> option error;
  Do : nat -> Request -> error + Response;
  Decode : Response -> error + list Entry;
  CreateFault : nat -> string -> option error;
  CopyFault : nat -> string -> option (nat * error);
  ReadFault : nat -> string -> option error;
  WriteFileFault : nat -> string -> option WriteFault;
  RemoveFault : nat -> string -> option error;
  Now : nat -> time.Time;
  text_Convert : nat -> string -> string -> option string -> Converted;
  html_Convert : nat -> string -> string -> option string -> Converted;
  DurationString : Z -> string;
  MarshalIndent : ProcessingSummary -> error + string
}.

(** The state the program acts on: the local files, the number of calls to
    the outside so far, the requests sent, and the lines logged and
    printed. *)
Record World : Type := {
  fs : gmap string string;
  step : nat;
  sent : list Request;
  logs : list string;
  stdout : list string
}.

Definition setFs (f : gmap string string -> gmap string string) (w : World) : World :=
  {| fs := f (fs w); step := step w; sent := sent w; logs := logs w;
     stdout := stdout w |}.

(** ** A state monad over [World] *)

Definition M (A : Type) : Type := World -> A * World.

Definition ret {A} (a : A) : M A := fun w => (a, w).

Definition bind {A B} (m : M A) (k : A -> M B) : M B :=
  fun w => let '(a, w1) := m w in k a w1.

Notation "'do' x <- m ; k" := (bind m (fun x => k))
  (at level 10, x name, m at level 100, k at level 200).
Notation "'do' ' pat <- m ; k" := (bind m (fun x => match x with pat => k end))
  (at level 10, pat pattern, m at level 100, k at level 200).
Notation "'run' m ; k" := (bind m (fun _ => k))
  (at level 10, m at level 100, k at level 200).

(** Count one call to the outside and return its number. *)
Definition tick : M nat := fun w =>
  (step w,
   {| fs := fs w; step := S (step w); sent := sent w; logs := logs w;
      stdout := stdout w |}).

Definition updFs (f : gmap string string -> gmap string string) : M unit :=
  fun w => (tt, setFs f w).

Definition getFs : M (gmap string string) := fun w => (fs w, w).

(** [log.Printf] / [log.Println] (the time stamp of the line is left out) *)
Definition log_Print (line : string) : M unit := fun w =>
  (tt, {| fs := fs w; step := step w; sent := sent w;
          logs := logs w ++ [line]; stdout := stdout w |}).

(** [fmt.Printf] *)
Definition fmt_Print (text : string) : M unit := fun w =>
  (tt, {| fs := fs w; step := step w; sent := sent w; logs := logs w;
          stdout := stdout w ++ [text] |}).

(** Run the body once per element, in order, threading the accumulator. *)
Fixpoint forEach {A S} (body : S -> A -> M S) (l : list A) (s : S) : M S :=
  match l with
  | [] => ret s
  | a :: rest => do s1 <- body s a; forEach body rest s1
  end.

Section Primitives.

Variable E : Env.

(** [httpClient.Do] *)
Definition http_Do (req : Request) : M (error + Response) :=
  do n <- tick;
  fun w =>
    (Do E n req,
     {| fs := fs w; step := step w; sent := sent w ++ [req]; logs := logs w;
        stdout := stdout w |}).

(** [os.Create]: the file exists and is empty afterwards. *)
Definition os_Create (path : string) : M (option error) :=
  do n <- tick;
  match CreateFault E n path with
  | Some e => ret (Some e)
  | None => run updFs (insert path ""); ret None
  end.

(** [io.Copy(file, resp.Body)] into the file just created at [path]. *)
Definition io_Copy (path : string) (resp : Response) : M (option error) :=
  do n <- tick;
  match CopyFault E n path with
  | Some (k, e) =>
      run updFs (insert path (String.substring 0 k (Body resp))); ret (Some e)
  | None => run updFs (insert path (Body resp)); ret (BodyErr resp)
  end.

(** [os.ReadFile] *)
Definition os_ReadFile (path : string) : M (error + string) :=
  do n <- tick;
  do files <- getFs;
  match ReadFault E n path with
  | Some e => ret (inl e)
  | None =>
      match files !! path with
      | Some data => ret (inr data)
      | None => ret (inl (libError ("open " +:+ path +:+ ": no such file or directory")))
      end
  end.

(** [os.WriteFile] *)
Definition os_WriteFile (path data : string) : M (option error) :=
  do n <- tick;
  match WriteFileFault E n path with
  | Some (OpenFails e) => ret (Some e)
  | Some (WriteFails k e) =>
      run updFs (insert path (String.substring 0 k data)); ret (Some e)
  | None => run updFs (insert path data); ret None
  end.

(** [os.Remove] *)
Definition os_Remove (path : string) : M (option error) :=
  do n <- tick;
  do files <- getFs;
  match RemoveFault E n path with
  | Some e => ret (Some e)
  | None =>
      match files !! path with
      | Some _ => run updFs (delete path); ret None
      | None => ret (Some (libError ("remove " +:+ path +:+ ": no such file or directory")))
      end
  end.

(** [time.Now] *)
Definition time_Now : M time.Time := do n <- tick; ret (Now E n).

(** [iwork2text.Convert] and [iwork2html.Convert] *)
Definition run_Convert
    (conv : nat -> string -> string -> option string -> Converted)
    (inputPath outputPath : string) : M (option error) :=
  do n <- tick;
  do files <- getFs;
  let r := conv n inputPath outputPath (files !! inputPath) in
  match written r with
  | Some data => run updFs (insert outputPath data); ret (convErr r)
  | None => ret (convErr r)
  end.

End Primitives.

(** ** The program *)

(** [NewBoxClient] *)
Definition NewBoxClient (accessToken folderID : string) : BoxClient :=
  {| config := {| AccessToken := accessToken;
                  BaseURL := "https://api.box.com/2.0";
                  FolderID := folderID |} |}.

(** [NewIWorkProcessor] *)
Definition NewIWorkProcessor (bc : BoxClient) (temp output fmt : string)
  : IWorkProcessor :=
  {| boxClient := bc; tempDir := temp; outputDir := output; format := fmt |}.

(** The map literal [supportedExtensions] of [GetIWorkFiles]; indexing a Go
    map with an absent key gives [false]. *)
Definition supportedExtensions : gmap string bool :=
  list_to_map
    [(".pages", true); (".numbers", true); (".keynote", true);
     (".key", true); (".nmbrs", true)].

Definition supported (ext : string) : bool :=
  default false (supportedExtensions !! ext).

(** The body of the loop over [result.Entries]: the element appended to
    [iworkFiles] for an entry, if any. *)
Definition selectEntry (entry : Entry) : option FileInfo :=
  if String.eqb (entryType entry) "file" then
    let ext := Str.ToLower (filepath.Ext (entryName entry)) in
    if supported ext then
      Some {| ID := entryID entry; Name := entryName entry;
              Size := entrySize entry; Extension := ext;
              ModifiedAt := entryModifiedAt entry |}
    else None
  else None.

Definition collectIWork (entries : list Entry) : list FileInfo :=
  fold_left
    (fun iworkFiles entry =>
       match selectEntry entry with
       | Some f => iworkFiles ++ [f]
       | None => iworkFiles
       end)
    entries [].

Definition StatusOK : Z := 200.

Definition nilTime : time.Time := time.zero.

Section Program.

Variable E : Env.

(** [BoxClient.GetIWorkFiles] *)
Definition GetIWorkFiles (bc : BoxClient) : M (list FileInfo * option error) :=
  let url := BaseURL (config bc) +:+ "/folders/" +:+ FolderID (config bc) +:+ "/items" in
  match NewRequest E "GET" url with
  | Some err => ret ([], Some (Errorf_w "failed to create request: " err))
  | None =>
      let req :=
        {| Method := "GET"; URL := url;
           Header := [("Authorization", "Bearer " +:+ AccessToken (config bc));
                      ("Content-Type", "application/json")] |} in
      do r <- http_Do E req;
      match r with
      | inl err => ret ([], Some (Errorf_w "failed to make request: " err))
      | inr resp =>
          if negb (StatusCode resp =? StatusOK) then
            ret ([], Some (Errorf_s "Box API error: " (Status resp)))
          else
            match Decode E resp with
            | inl err => ret ([], Some (Errorf_w "failed to decode response: " err))
            | inr entries =>
                let iworkFiles := collectIWork entries in
                run log_Print ("Found " +:+ Str.Itoa (Z.of_nat (length iworkFiles))
                                 +:+ " iWork files in Box folder "
                                 +:+ FolderID (config bc));
                ret (iworkFiles, None)
            end
      end
  end.

(** [BoxClient.DownloadFile] *)
Definition DownloadFile (bc : BoxClient) (fileID filename temp : string)
  : M (string * option error) :=
  let url := BaseURL (config bc) +:+ "/files/" +:+ fileID +:+ "/content" in
  match NewRequest E "GET" url with
  | Some err => ret ("", Some (Errorf_w "failed to create download request: " err))
  | None =>
      let req :=
        {| Method := "GET"; URL := url;
           Header := [("Authorization", "Bearer " +:+ AccessToken (config bc))] |} in
      do r <- http_Do E req;
      match r with
      | inl err => ret ("", Some (Errorf_w "failed to download file: " err))
      | inr resp =>
          if negb (StatusCode resp =? StatusOK) then
            ret ("", Some (Errorf_s "download failed with status: " (Status resp)))
          else
            let tempPath := filepath.Join [temp; filename] in
            do c <- os_Create E tempPath;
            match c with
            | Some err => ret ("", Some (Errorf_w "failed to create temp file: " err))
            | None =>
                do cp <- io_Copy E tempPath resp;
                match cp with
                | Some err => ret ("", Some (Errorf_w "failed to write file: " err))
                | None =>
                    run log_Print ("Downloaded " +:+ filename +:+ " to " +:+ tempPath);
                    ret (tempPath, None)
                end
            end
      end
  end.

(** [IWorkProcessor.ConvertIWorkFile] *)
Definition ConvertIWorkFile (p : IWorkProcessor) (inputPath outputPath : string)
  : M (option error) :=
  if String.eqb (format p) "txt" then
    run_Convert (text_Convert E) inputPath outputPath
  else
    run_Convert (html_Convert E) inputPath outputPath.

(** The header block written by [SaveFileWithMetadata], up to and
    including the [buffer.WriteString] calls before the content. *)
Definition metadataHeader (metadata : FileInfo) (now : time.Time) : string :=
  ("# Extracted from: " +:+ Name metadata +:+ Str.nl)
    +:+ ("# File ID: " +:+ ID metadata +:+ Str.nl)
    +:+ ("# Size: " +:+ Str.Itoa (Size metadata) +:+ " bytes" +:+ Str.nl)
    +:+ ("# Modified: " +:+ time.FormatRFC3339 (ModifiedAt metadata) +:+ Str.nl)
    +:+ ("# Extracted: " +:+ time.FormatRFC3339 now +:+ Str.nl)
    +:+ ("# Extension: " +:+ Extension metadata +:+ Str.nl)
    +:+ Str.nl
    +:+ Str.Repeat "-" 50
    +:+ (Str.nl +:+ Str.nl).

(** [IWorkProcessor.SaveFileWithMetadata] *)
Definition SaveFileWithMetadata (p : IWorkProcessor)
    (originalPath convertedPath : string) (metadata : FileInfo)
  : M (string * option error) :=
  if negb (String.eqb (format p) "txt") then ret (convertedPath, None)
  else
    do r <- os_ReadFile E convertedPath;
    match r with
    | inl err => ret ("", Some (Errorf_w "failed to read converted file: " err))
    | inr convertedContent =>
        do now <- time_Now E;
        let buffer := metadataHeader metadata now +:+ convertedContent in
        do wr <- os_WriteFile E convertedPath buffer;
        match wr with
        | Some err => ret ("", Some (Errorf_w "failed to write enhanced file: " err))
        | None =>
            run log_Print ("Enhanced " +:+ convertedPath +:+ " with metadata");
            ret (convertedPath, None)
        end
    end.

(** [summary.Failed++] with the message appended to [summary.Errors] *)
Definition recordFailure (summary : ProcessingSummary) (message : string)
  : ProcessingSummary :=
  {| TotalFiles := TotalFiles summary;
     Successful := Successful summary;
     Failed := Failed summary + 1;
     Errors := Errors summary ++ [message];
     ProcessedFiles := ProcessedFiles summary;
     StartTime := StartTime summary;
     EndTime := EndTime summary;
     Duration := Duration summary |}.

(** [summary.Successful++] with the record appended to
    [summary.ProcessedFiles] *)
Definition recordSuccess (summary : ProcessingSummary) (record : ProcessedFile)
  : ProcessingSummary :=
  {| TotalFiles := TotalFiles summary;
     Successful := Successful summary + 1;
     Failed := Failed summary;
     Errors := Errors summary;
     ProcessedFiles := ProcessedFiles summary ++ [record];
     StartTime := StartTime summary;
     EndTime := EndTime summary;
     Duration := Duration summary |}.

(** The output path chosen in the loop of [ProcessFolder] for a file of
    the given name. *)
Definition outputPathOf (p : IWorkProcessor) (name : string) : string :=
  let baseName := Str.TrimSuffix name (filepath.Ext name) in
  if String.eqb (format p) "txt" then
    filepath.Join [outputDir p; baseName +:+ "_extracted.txt"]
  else
    filepath.Join [outputDir p; baseName +:+ "_converted.html"].

(** One iteration of the loop of [ProcessFolder]. *)
Definition processFile (p : IWorkProcessor) (summary : ProcessingSummary)
    (fileInfo : FileInfo) : M ProcessingSummary :=
  run log_Print ("Processing " +:+ Name fileInfo +:+ "...");
  do processStart <- time_Now E;
  do ' (localPath, err) <-
    DownloadFile (boxClient p) (ID fileInfo) (Name fileInfo) (tempDir p);
  match err with
  | Some err =>
      ret (recordFailure summary
             ("Failed to download " +:+ Name fileInfo +:+ ": " +:+ Error err))
  | None =>
      let outputPath := outputPathOf p (Name fileInfo) in
      do err <- ConvertIWorkFile p localPath outputPath;
      match err with
      | Some err =>
          let summary :=
            recordFailure summary
              ("Failed to convert " +:+ Name fileInfo +:+ ": " +:+ Error err) in
          run os_Remove E localPath;
          ret summary
      | None =>
          do ' (finalPath, err) <-
            SaveFileWithMetadata p localPath outputPath fileInfo;
          do summary <-
            match err with
            | Some err =>
                ret (recordFailure summary
                       ("Failed to save enhanced file for " +:+ Name fileInfo
                          +:+ ": " +:+ Error err))
            | None =>
                do now <- time_Now E;
                ret (recordSuccess summary
                       {| OriginalFile := Name fileInfo;
                          OutputPath := finalPath;
                          FileSize := Size fileInfo;
                          ProcessTime :=
                            DurationString E (time.Sub now processStart) |})
            end;
          run os_Remove E localPath;
          ret summary
      end
  end.

(** [IWorkProcessor.ProcessFolder] *)
Definition ProcessFolder (p : IWorkProcessor)
  : M (ProcessingSummary * option error) :=
  do start <- time_Now E;
  let summary :=
    {| TotalFiles := 0; Successful := 0; Failed := 0;
       Errors := []; ProcessedFiles := [];
       StartTime := start; EndTime := nilTime; Duration := 0 |} in
  do ' (iworkFiles, err) <- GetIWorkFiles (boxClient p);
  match err with
  | Some err => ret (summary, Some (Errorf_w "failed to get iWork files: " err))
  | None =>
      let summary :=
        {| TotalFiles := Z.of_nat (length iworkFiles);
           Successful := Successful summary; Failed := Failed summary;
           Errors := Errors summary; ProcessedFiles := ProcessedFiles summary;
           StartTime := StartTime summary; EndTime := EndTime summary;
           Duration := Duration summary |} in
      if Z.of_nat (length iworkFiles) =? 0 then
        run log_Print "No iWork files found to process";
        ret (summary, None)
      else
        do summary <- forEach (processFile p) iworkFiles summary;
        do finish <- time_Now E;
        ret ({| TotalFiles := TotalFiles summary;
                Successful := Successful summary; Failed := Failed summary;
                Errors := Errors summary;
                ProcessedFiles := ProcessedFiles summary;
                StartTime := StartTime summary;
                EndTime := finish;
                Duration := time.Sub finish (StartTime summary) |}, None)
  end.

(** [IWorkProcessor.GenerateReport] *)
Definition GenerateReport (p : IWorkProcessor) (summary : ProcessingSummary)
  : M (string * option error) :=
  do now <- time_Now E;
  let timestamp := time.FormatStamp now in
  let reportPath :=
    filepath.Join [outputDir p; "processing_report_" +:+ timestamp +:+ ".json"] in
  match MarshalIndent E summary with
  | inl err => ret ("", Some (Errorf_w "failed to marshal report: " err))
  | inr reportData =>
      do wr <- os_WriteFile E reportPath reportData;
      match wr with
      | Some err => ret ("", Some (Errorf_w "failed to write report: " err))
      | None =>
          run log_Print ("Generated processing report: " +:+ reportPath);
          ret (reportPath, None)
      end
  end.

(** How [main] ends: by returning, or through [log.Fatalf], which exits
    with status 1. *)
Inductive Ending : Type := Returned | Exited (code : Z).

(** The Box branch of [main] from the point where the components are
    initialised, for the resolved token, folder, directories and format. *)
Definition mainBox (token folder output temp fmt : string) : M Ending :=
  let boxClient := NewBoxClient token folder in
  let processor := NewIWorkProcessor boxClient temp output fmt in
  run fmt_Print ("Starting Box iWork processing..." +:+ Str.nl);
  run fmt_Print ("Folder ID: " +:+ folder +:+ Str.nl);
  run fmt_Print ("Output format: " +:+ fmt +:+ Str.nl);
  run fmt_Print ("Output directory: " +:+ output +:+ Str.nl);
  do ' (summary, err) <- ProcessFolder processor;
  match err with
  | Some err =>
      run log_Print ("Processing failed: " +:+ Error err);
      ret (Exited 1)
  | None =>
      do ' (reportPath, err) <- GenerateReport processor summary;
      run match err with
          | Some err => log_Print ("Failed to generate report: " +:+ Error err)
          | None => ret tt
          end;
      run fmt_Print (Str.nl +:+ Str.Repeat "=" 50 +:+ Str.nl);
      run fmt_Print ("PROCESSING SUMMARY" +:+ Str.nl);
      run fmt_Print (Str.Repeat "=" 50 +:+ Str.nl);
      run fmt_Print ("Total files found: " +:+ Str.Itoa (TotalFiles summary) +:+ Str.nl);
      run fmt_Print ("Successfully processed: " +:+ Str.Itoa (Successful summary) +:+ Str.nl);
      run fmt_Print ("Failed: " +:+ Str.Itoa (Failed summary) +:+ Str.nl);
      run fmt_Print ("Processing time: " +:+ DurationString E (Duration summary) +:+ Str.nl);
      run match Errors summary with
          | [] => ret tt
          | _ :: _ =>
              run fmt_Print (Str.nl +:+ "Errors:" +:+ Str.nl);
              forEach (fun _ err => fmt_Print ("  - " +:+ err +:+ Str.nl))
                (Errors summary) tt
          end;
      run (if String.eqb reportPath "" then ret tt
           else fmt_Print (Str.nl +:+ "Detailed report: " +:+ reportPath +:+ Str.nl));
      run fmt_Print ("Output files: " +:+ output +:+ Str.nl);
      ret Returned
  end.

End Program.

(** ** The command line of [main.go] *)

(** The one-byte string holding a double quote. *)
Definition dquote : string := String (ascii_of_nat 34) "".

(** The lines of the text that [showUsage] prints, for the program name
    [prog] (each [%s] of the format is [os.Args[0]]). *)
Definition usageLines (prog : string) : list string :=
  ["iwork-converter - Converts iWork files to html/json/txt";
   "";
   "Usage:";
   "    # Convert single file";
   "    " +:+ prog +:+ " infile.pages outfile.html";
   "    " +:+ prog +:+ " infile.pages outfile.txt";
   "";
   "    # Process Box folder";
   "    " +:+ prog +:+ " -box -token=BOX_TOKEN [options]";
   "";
   "Box Options:";
   "    -box                 Enable Box mode";
   "    -token=TOKEN         Box API access token (required for Box mode)";
   "    -folder=ID           Box folder ID (default: " +:+ dquote +:+ "0" +:+ dquote +:+ " for root)";
   "    -format=FORMAT       Output format: " +:+ dquote +:+ "txt" +:+ dquote +:+ " or " +:+ dquote +:+ "html" +:+ dquote +:+ " (default: " +:+ dquote +:+ "txt" +:+ dquote +:+ ")";
   "    -output=DIR          Output directory (default: " +:+ dquote +:+ "./extracted" +:+ dquote +:+ ")";
   "    -temp=DIR            Temp directory (default: " +:+ dquote +:+ "./temp" +:+ dquote +:+ ")";
   "";
   "Environment Variables (alternative to flags):";
   "    BOX_ACCESS_TOKEN     Box API access token";
   "    BOX_FOLDER_ID        Box folder ID";
   "    OUTPUT_DIR           Output directory";
   "    TEMP_DIR             Temp directory";
   "";
   "Examples:";
   "    # Convert single file";
   "    " +:+ prog +:+ " document.pages document.html";
   "    " +:+ prog +:+ " document.pages document.txt";
   "";
   "    # Process entire Box folder";
   "    " +:+ prog +:+ " -box -token=your_token";
   "    " +:+ prog +:+ " -box -token=your_token -folder=123456 -format=html";
   ""].

Definition usageText (prog : string) : string :=
  foldr (fun line rest => line +:+ Str.nl +:+ rest) "" (usageLines prog).

(** The flags of [main], as [flag.Parse] leaves them. *)
Record Flags : Type := {
  flagBox : bool;
  flagToken : string;
  flagFolder : string;
  flagFormat : string;
  flagOutput : string;
  flagTemp : string;
  flagHelp : bool
}.

(** The process environment of [main]: the environment variables, the
    program name [os.Args[0]], the rest of [os.Args], and the outcome of
    [os.MkdirAll] (an oracle like those of [Env]). *)
Record Host : Type := {
  Getenv : string -> string;
  progName : string;
  argsRest : list string;
  MkdirAll : nat -> string -> option error
}.

(** [strings.HasSuffix] *)
Definition HasSuffix (s suffix : string) : bool :=
  match Str.cutSuffix s suffix with
  | Some _ => true
  | None => false
  end.

(** The flag value, or the environment variable when the flag is empty. *)
Definition flagOrEnv (H : Host) (flag variable : string) : string :=
  if String.eqb flag "" then Getenv H variable else flag.

(** The value, or the default when the value is empty. *)
Definition orDefault (value fallback : string) : string :=
  if String.eqb value "" then fallback else value.

Section CommandLine.

Variable E : Env.
Variable H : Host.

(** [os.MkdirAll] *)
Definition os_MkdirAll (path : string) : M (option error) :=
  do n <- tick; ret (MkdirAll H n path).

(** The loop of [setupDirectories]: the first failure ends it. *)
Fixpoint mkdirEach (dirs : list string) : M (option error) :=
  match dirs with
  | [] => ret None
  | dir :: rest =>
      do r <- os_MkdirAll dir;
      match r with
      | Some err =>
          ret (Some (Errorf_w ("failed to create directory " +:+ dir +:+ ": ") err))
      | None => mkdirEach rest
      end
  end.

(** [setupDirectories] *)
Definition setupDirectories (temp output : string) : M (option error) :=
  mkdirEach [temp; output].

(** [showUsage] *)
Definition showUsage : M unit := fmt_Print (usageText (progName H)).

(** The single-file mode at the end of [main]; a [panic] ends the program
    with status 2 (the trace it prints is left out). *)
Definition singleFile : M Ending :=
  match argsRest H with
  | input :: output :: _ =>
      do err <-
        (if HasSuffix output ".txt" then
           run_Convert (text_Convert E) input output
         else
           run_Convert (html_Convert E) input output);
      match err with
      | Some _ => ret (Exited 2)
      | None => ret Returned
      end
  | _ => run showUsage; ret Returned
  end.

(** [main], after [flag.Parse]. *)
Definition main (fl : Flags) : M Ending :=
  if flagHelp fl then
    run showUsage; ret Returned
  else if flagBox fl then
    let token := flagOrEnv H (flagToken fl) "BOX_ACCESS_TOKEN" in
    if String.eqb token "" then
      run fmt_Print ("Error: Box access token required. Use -token flag or BOX_ACCESS_TOKEN environment variable."
                       +:+ Str.nl);
      run showUsage;
      ret Returned
    else
      let folder := orDefault (flagOrEnv H (flagFolder fl) "BOX_FOLDER_ID") "0" in
      let output := orDefault (flagOrEnv H (flagOutput fl) "OUTPUT_DIR") "./extracted" in
      let temp := orDefault (flagOrEnv H (flagTemp fl) "TEMP_DIR") "./temp" in
      if negb (String.eqb (flagFormat fl) "txt") && negb (String.eqb (flagFormat fl) "html") then
        run fmt_Print ("Error: Invalid format '" +:+ flagFormat fl
                         +:+ "'. Must be 'txt' or 'html'." +:+ Str.nl);
        ret Returned
      else
        do err <- setupDirectories temp output;
        match err with
        | Some err =>
            run log_Print ("Failed to setup directories: " +:+ Error err);
            ret (Exited 1)
        | None => mainBox E token folder output temp (flagFormat fl)
        end
  else singleFile.

End CommandLine.

(** * Vocabulary of the statements *)

(** An extension as [filepath.Ext] returns it: a dot followed by bytes that
    are neither a dot nor a separator. *)
Definition isExtension (ext : string) : bool :=
  match ext with
  | String c tail =>
      Ascii.eqb c Str.dot
      && negb (Str.contains Str.dot tail) && negb (Str.contains Str.slash tail)
  | EmptyString => false
  end.


(** The suffix that the requested format puts after the base name. *)
Definition formatSuffix (fmt : string) : string :=
  if String.eqb fmt "txt" then "_extracted.txt" else "_converted.html".

(** What one candidate leaves in the summary: a record of success, or a
    failure message. *)
Definition Outcome : Type := (ProcessedFile + string)%type.

Definition applyOutcome (s : ProcessingSummary) (o : Outcome) : ProcessingSummary :=
  match o with
  | inl record => recordSuccess s record
  | inr message => recordFailure s message
  end.

Definition successes (outs : list Outcome) : list ProcessedFile :=
  omap (fun o => match o with inl r => Some r | inr _ => None end) outs.

Definition failures (outs : list Outcome) : list string :=
  omap (fun o => match o with inl _ => None | inr m => Some m end) outs.

(** The three stages at which a candidate can fail, as the messages of
    [ProcessFolder] name them. *)
Definition failureStages : list string :=
  ["Failed to download "; "Failed to convert ";
   "Failed to save enhanced file for "].

(** The outcome [o] belongs to the candidate [f]. *)
Definition outcomeFor (f : FileInfo) (o : Outcome) : Prop :=
  match o with
  | inl record => OriginalFile record = Name f /\ FileSize record = Size f
  | inr message =>
      exists stage e,
        stage ∈ failureStages
        /\ message = stage +:+ Name f +:+ ": " +:+ Error e
  end.

(** A world about which only the number of earlier calls is known. *)
Definition atStep (n : nat) : World :=
  {| fs := ∅; step := n; sent := []; logs := []; stdout := [] |}.

(** The answer of the listing when it is made after [n] earlier calls. *)
Definition listingAt (E : Env) (bc : BoxClient) (n : nat)
  : list FileInfo * option error :=
  (GetIWorkFiles E bc (atStep n)).1.

(** The two requests the client builds. *)
Definition listRequest (bc : BoxClient) : Request :=
  {| Method := "GET";
     URL := BaseURL (config bc) +:+ "/folders/" +:+ FolderID (config bc) +:+ "/items";
     Header := [("Authorization", "Bearer " +:+ AccessToken (config bc));
                ("Content-Type", "application/json")] |}.

Definition downloadRequest (bc : BoxClient) (fileID : string) : Request :=
  {| Method := "GET";
     URL := BaseURL (config bc) +:+ "/files/" +:+ fileID +:+ "/content";
     Header := [("Authorization", "Bearer " +:+ AccessToken (config bc))] |}.

(** The request, in a list, when [http.NewRequest] accepts its URL. *)
Definition issued (E : Env) (r : Request) : list Request :=
  match NewRequest E (Method r) (URL r) with
  | None => [r]
  | Some _ => []
  end.

(** The download requests of a list of candidates, in order. *)
Definition downloadsOf (E : Env) (bc : BoxClient) (files : list FileInfo)
  : list Request :=
  concat (map (fun f => issued E (downloadRequest bc (ID f))) files).

(** The computation [m] leaves the part [proj] of the world as it was. *)
Definition keeps {A B} (proj : World -> B) (m : M A) : Prop :=
  forall w, proj (m w).2 = proj w.

(** The summary of [ProcessFolder] before the loop and after it. *)
Definition initSummary (start : time.Time) (total : Z) : ProcessingSummary :=
  {| TotalFiles := total; Successful := 0; Failed := 0;
     Errors := []; ProcessedFiles := [];
     StartTime := start; EndTime := nilTime; Duration := 0 |}.

Definition finishSummary (s : ProcessingSummary) (finish : time.Time)
  : ProcessingSummary :=
  {| TotalFiles := TotalFiles s; Successful := Successful s;
     Failed := Failed s; Errors := Errors s;
     ProcessedFiles := ProcessedFiles s; StartTime := StartTime s;
     EndTime := finish; Duration := time.Sub finish (StartTime s) |}.

(** The layout of a text output as the specification words it: six header
    lines, then at once a separator line of 50 characters, then an empty
    line, then the converted content. *)
Definition claimedTextLayout (out content : string) : Prop :=
  exists l1 l2 l3 l4 l5 l6 sep,
    Str.cutLines 8 out = Some ([l1; l2; l3; l4; l5; l6; sep; ""], content)
    /\ String.length sep = 50%nat.

(** The lines that [SaveFileWithMetadata] puts before the content. *)
Definition headerLines (metadata : FileInfo) (now : time.Time) : list string :=
  ["# Extracted from: " +:+ Name metadata;
   "# File ID: " +:+ ID metadata;
   "# Size: " +:+ Str.Itoa (Size metadata) +:+ " bytes";
   "# Modified: " +:+ time.FormatRFC3339 (ModifiedAt metadata);
   "# Extracted: " +:+ time.FormatRFC3339 now;
   "# Extension: " +:+ Extension metadata;
   "";
   Str.Repeat "-" 50;
   ""].

(** ** Sample environments *)

Module Sample.

Definition t0 : time.Time := time.mkTime 1700000000 0 0.

Definition ok (body : string) : Response :=
  {| StatusCode := 200; Status := "200 OK"; Body := body; BodyErr := None |}.

Definition status (code : Z) (text : string) : Response :=
  {| StatusCode := code; Status := text; Body := ""; BodyErr := None |}.

(** An environment without faults: the server answers through [serve], the
    listing decodes to [entries], the converters write fixed contents, and
    the clock advances by one second per call. *)
Definition env (serve : Request -> error + Response) (entries : list Entry) : Env :=
  {| NewRequest := fun _ _ => None;
     Do := fun _ req => serve req;
     Decode := fun _ => inr entries;
     CreateFault := fun _ _ => None;
     CopyFault := fun _ _ => None;
     ReadFault := fun _ _ => None;
     WriteFileFault := fun _ _ => None;
     RemoveFault := fun _ _ => None;
     Now := fun n => time.mkTime (1700000000 + Z.of_nat n) 0 0;
     text_Convert := fun _ _ _ _ => {| written := Some "Hello"; convErr := None |};
     html_Convert := fun _ _ _ _ => {| written := Some "<p>Hello</p>"; convErr := None |};
     DurationString := fun d => Str.Itoa d +:+ "ns";
     MarshalIndent := fun s => inr ("{total_files: " +:+ Str.Itoa (TotalFiles s) +:+ "}") |}.

Definition offline : Request -> error + Response :=
  fun _ => inl (libError "dial tcp: i/o timeout").

Definition emptyWorld : World :=
  {| fs := ∅; step := 0; sent := []; logs := []; stdout := [] |}.

Definition worldWith (files : gmap string string) : World :=
  {| fs := files; step := 0; sent := []; logs := []; stdout := [] |}.

Definition processor (fmt : string) : IWorkProcessor :=
  NewIWorkProcessor (NewBoxClient "token" "0") "temp" "out" fmt.

Definition doc1 : Entry :=
  {| entryID := "11"; entryName := "Doc1.pages"; entryType := "file";
     entrySize := 1024; entryModifiedAt := t0 |}.

Definition doc2 : Entry :=
  {| entryID := "12"; entryName := "Doc2.numbers"; entryType := "file";
     entrySize := 2048; entryModifiedAt := t0 |}.

Definition image : Entry :=
  {| entryID := "13"; entryName := "Image.png"; entryType := "file";
     entrySize := 4096; entryModifiedAt := t0 |}.

(** A server whose listing succeeds and which answers the download of the
    file [11] with [answer]; every other download fails in transport. *)
Definition server (answer : error + Response) : Request -> error + Response :=
  fun req =>
    if String.eqb (URL req) "https://api.box.com/2.0/folders/0/items" then inr (ok "{}")
    else if String.eqb (URL req) "https://api.box.com/2.0/files/11/content" then answer
    else inl (libError "dial tcp: i/o timeout").

(** A download that is answered with 200 and breaks after three bytes. *)
Definition truncated : Response :=
  {| StatusCode := 200; Status := "200 OK"; Body := "PAG";
     BodyErr := Some (libError "unexpected EOF") |}.

Definition report : FileInfo :=
  {| ID := "11"; Name := "Report.pages"; Size := 1024; Extension := ".pages";
     ModifiedAt := t0 |}.

End Sample.

(** The kind of an error, as a program can tell it without reading the
    text: which sort of value it is, and the kind of what it wraps. *)
Inductive Kind : Type :=
| plainText
| wrapping (inner : Kind)
| fromLibrary.

Fixpoint kindOf (e : error) : Kind :=
  match e with
  | errorString _ => plainText
  | wrapError _ w => wrapping (kindOf w)
  | libError _ => fromLibrary
  end.

(** The computation [m] returns [a] from every world. *)
Definition yields {A} (m : M A) (a : A) : Prop := forall w, (m w).1 = a.

(** What [main] does once [ProcessFolder] has returned without error. *)
Definition afterProcessing (E : Env) (processor : IWorkProcessor) (output : string)
    (summary : ProcessingSummary) : M Ending :=
  do ' (reportPath, err) <- GenerateReport E processor summary;
  run match err with
      | Some err => log_Print ("Failed to generate report: " +:+ Error err)
      | None => ret tt
      end;
  run fmt_Print (Str.nl +:+ Str.Repeat "=" 50 +:+ Str.nl);
  run fmt_Print ("PROCESSING SUMMARY" +:+ Str.nl);
  run fmt_Print (Str.Repeat "=" 50 +:+ Str.nl);
  run fmt_Print ("Total files found: " +:+ Str.Itoa (TotalFiles summary) +:+ Str.nl);
  run fmt_Print ("Successfully processed: " +:+ Str.Itoa (Successful summary) +:+ Str.nl);
  run fmt_Print ("Failed: " +:+ Str.Itoa (Failed summary) +:+ Str.nl);
  run fmt_Print ("Processing time: " +:+ DurationString E (Duration summary) +:+ Str.nl);
  run match Errors summary with
      | [] => ret tt
      | _ :: _ =>
          run fmt_Print (Str.nl +:+ "Errors:" +:+ Str.nl);
          forEach (fun _ err => fmt_Print ("  - " +:+ err +:+ Str.nl))
            (Errors summary) tt
      end;
  run (if String.eqb reportPath "" then ret tt
       else fmt_Print (Str.nl +:+ "Detailed report: " +:+ reportPath +:+ Str.nl));
  run fmt_Print ("Output files: " +:+ output +:+ Str.nl);
  ret Returned.

(** The world in which [main] calls [ProcessFolder]: the four lines of the
    banner are printed, nothing else has changed. *)
Definition afterBanner (folder fmt output : string) (w : World) : World :=
  {| fs := fs w; step := step w; sent := sent w; logs := logs w;
     stdout := stdout w
               ++ ["Starting Box iWork processing..." +:+ Str.nl;
                   "Folder ID: " +:+ folder +:+ Str.nl;
                   "Output format: " +:+ fmt +:+ Str.nl;
                   "Output directory: " +:+ output +:+ Str.nl] |}.

(** The computation [m] changes the file system at most at the paths that
    satisfy [P]. *)
Definition changesOnly {A} (P : string -> Prop) (m : M A) : Prop :=
  forall w path, ~ P path -> fs (m w).2 !! path = fs w !! path.

(** The scratch path of a candidate, and the two paths an iteration of
    [ProcessFolder] works on. *)
Definition scratchPath (p : IWorkProcessor) (f : FileInfo) : string :=
  filepath.Join [tempDir p; Name f].

Definition pathsOf (p : IWorkProcessor) (f : FileInfo) (path : string) : Prop :=
  path = scratchPath p f \/ path = outputPathOf p (Name f).

(** The message that [ProcessFolder] records for a failed download. *)
Definition downloadFailure (f : FileInfo) (e : error) : string :=
  "Failed to download " +:+ Name f +:+ ": " +:+ Error e.

(** A record of success as [ProcessFolder] builds it for the candidate. *)
Definition recordFor (p : IWorkProcessor) (f : FileInfo) (r : ProcessedFile) : Prop :=
  OriginalFile r = Name f
  /\ OutputPath r = outputPathOf p (Name f)
  /\ FileSize r = Size f.


(** The path of the report written at the time [t]. *)
Definition reportPathAt (output : string) (t : time.Time) : string :=
  filepath.Join
    [output; "processing_report_" +:+ time.FormatStamp t +:+ ".json"].

(** The result of a download: the scratch path, or an error and no path. *)
Definition downloadResult (scratch : string) (r : string * option error) : Prop :=
  r = (scratch, None) \/ exists e, r = ("", Some e).

(** The environment [E] with a clock that always shows [t]. *)
Definition withClock (E : Env) (t : time.Time) : Env :=
  {| NewRequest := NewRequest E; Do := Do E; Decode := Decode E;
     CreateFault := CreateFault E; CopyFault := CopyFault E;
     ReadFault := ReadFault E; WriteFileFault := WriteFileFault E;
     RemoveFault := RemoveFault E; Now := fun _ => t;
     text_Convert := text_Convert E; html_Convert := html_Convert E;
     DurationString := DurationString E; MarshalIndent := MarshalIndent E |}.

(** After the candidates [done] have been processed, the scratch path of
    each of them is free, or the last thing written there is what a failed
    download left. *)
Definition cleaned (p : IWorkProcessor) (done : list FileInfo)
    (s : ProcessingSummary) (w : World) : Prop :=
  forall f, f ∈ done ->
    fs w !! scratchPath p f = None
    \/ exists g e,
         g ∈ done /\ scratchPath p g = scratchPath p f
         /\ downloadFailure g e ∈ Errors s.

(** ** Sample command lines *)

Module Cli.

(** A host without environment variables on which every directory can be
    created. *)
Definition host (rest : list string) : Host :=
  {| Getenv := fun _ => ""; progName := "iwork-converter"; argsRest := rest;
     MkdirAll := fun _ _ => None |}.

(** A host on which no directory can be created. *)
Definition readOnlyHost (rest : list string) : Host :=
  {| Getenv := fun _ => ""; progName := "iwork-converter"; argsRest := rest;
     MkdirAll := fun _ path => Some (libError ("mkdir " +:+ path +:+ ": permission denied")) |}.

(** A host whose environment gives a token, a folder and both directories. *)
Definition configuredHost : Host :=
  {| Getenv := fun name =>
       if String.eqb name "BOX_ACCESS_TOKEN" then "env-token"
       else if String.eqb name "BOX_FOLDER_ID" then "42"
       else if String.eqb name "OUTPUT_DIR" then "env-out"
       else if String.eqb name "TEMP_DIR" then "env-temp"
       else "";
     progName := "iwork-converter"; argsRest := ["-box"];
     MkdirAll := fun _ _ => None |}.

(** The flags of [-box -token=<token> -format=<fmt>]. *)
Definition box (token fmt : string) : Flags :=
  {| flagBox := true; flagToken := token; flagFolder := ""; flagFormat := fmt;
     flagOutput := ""; flagTemp := ""; flagHelp := false |}.

(** The flags of [-box -token=t -folder=7 -output=o -temp=s]. *)
Definition explicit : Flags :=
  {| flagBox := true; flagToken := "t"; flagFolder := "7"; flagFormat := "html";
     flagOutput := "o"; flagTemp := "s"; flagHelp := false |}.

(** No flag at all. *)
Definition none : Flags :=
  {| flagBox := false; flagToken := ""; flagFolder := ""; flagFormat := "txt";
     flagOutput := ""; flagTemp := ""; flagHelp := false |}.

End Cli.

(** * Properties *)

(** ** Strings and paths *)

Section StringFacts.

Lemma append_cons (c : ascii) (a b : string) :
  String c a +:+ b = String c (a +:+ b).
Proof. reflexivity. Qed.

Lemma append_nil_r (s : string) : s +:+ "" = s.
Proof. induction s as [|c s IH]; [done | by rewrite append_cons, IH]. Qed.

Lemma append_assoc (a b c : string) : (a +:+ b) +:+ c = a +:+ (b +:+ c).
Proof. induction a as [|x a IH]; [done | by rewrite !append_cons, IH]. Qed.

Lemma length_append (a b : string) :
  String.length (a +:+ b) = (String.length a + String.length b)%nat.
Proof. induction a as [|x a IH]; [done | rewrite append_cons; simpl; by rewrite IH]. Qed.

Lemma list_ascii_append (a b : string) :
  list_ascii_of_string (a +:+ b) = list_ascii_of_string a ++ list_ascii_of_string b.
Proof. induction a as [|x a IH]; [done | rewrite append_cons; simpl; by rewrite IH]. Qed.

Lemma contains_append (c : ascii) (a b : string) :
  Str.contains c (a +:+ b) = Str.contains c a || Str.contains c b.
Proof.
  induction a as [|x a IH]; [done |].
  rewrite append_cons. simpl. rewrite IH. by rewrite orb_assoc.
Qed.

Lemma eqb_append_longer (c : ascii) (a e : string) :
  String.eqb (String c (a +:+ e)) e = false.
Proof.
  apply String.eqb_neq. intros H.
  apply (f_equal String.length) in H. simpl in H.
  rewrite length_append in H. lia.
Qed.

(** Cutting a suffix off a string built by appending it gives the front. *)
Lemma cutSuffix_append (a e : string) : Str.cutSuffix (a +:+ e) e = Some a.
Proof.
  induction a as [|c a IH].
  - change ("" +:+ e) with e.
    destruct e as [|x e]; cbn [Str.cutSuffix]; by rewrite String.eqb_refl.
  - rewrite append_cons.
    cbn [Str.cutSuffix]. rewrite eqb_append_longer.
    by rewrite IH.
Qed.

Lemma TrimSuffix_append (a e : string) : Str.TrimSuffix (a +:+ e) e = a.
Proof. unfold Str.TrimSuffix. by rewrite cutSuffix_append. Qed.

(** The scan of [filepath.Ext] walks over bytes that are neither a dot nor
    a separator and collects them. *)
Lemma extScan_clean (tail : string) (before : list ascii) (acc : string) :
  Str.contains Str.dot tail = false ->
  Str.contains Str.slash tail = false ->
  filepath.extScan (rev (list_ascii_of_string tail) ++ before) acc
  = filepath.extScan before (tail +:+ acc).
Proof.
  revert before acc.
  induction tail as [|c tail IH]; intros before acc Hdot Hslash; [done |].
  simpl in Hdot, Hslash.
  apply orb_false_iff in Hdot as [Hc1 Ht1].
  apply orb_false_iff in Hslash as [Hc2 Ht2].
  simpl. rewrite <- app_assoc. rewrite IH by done.
  simpl. by rewrite Hc2, Hc1.
Qed.

Lemma Ext_append (base ext : string) :
  isExtension ext = true -> filepath.Ext (base +:+ ext) = ext.
Proof.
  destruct ext as [|c tail]; [done |]. simpl.
  intros H. apply andb_true_iff in H as [H Hslash].
  apply andb_true_iff in H as [Hc Hdot].
  apply Ascii.eqb_eq in Hc. subst c.
  apply negb_true_iff in Hslash, Hdot.
  unfold filepath.Ext. rewrite list_ascii_append, rev_app_distr. simpl.
  rewrite <- app_assoc. rewrite extScan_clean by done.
  simpl. by rewrite append_nil_r.
Qed.

End StringFacts.

Section PathFacts.

Lemma string_of_list_ascii_app (l1 l2 : list ascii) :
  string_of_list_ascii (l1 ++ l2)
  = string_of_list_ascii l1 +:+ string_of_list_ascii l2.
Proof. induction l1 as [|c l1 IH]; [done | simpl; by rewrite IH]. Qed.

(** Whatever the scan returns is a suffix of the text it walked over. *)
Lemma extScan_suffix (l : list ascii) (acc : string) :
  exists front,
    string_of_list_ascii (rev l) +:+ acc = front +:+ filepath.extScan l acc.
Proof.
  revert acc. induction l as [|c l IH]; intros acc.
  - exists acc. simpl. by rewrite append_nil_r.
  - simpl. rewrite string_of_list_ascii_app. simpl.
    rewrite append_assoc. change (String c "" +:+ acc) with (String c acc).
    destruct (Ascii.eqb c Str.slash).
    + eexists. by rewrite append_nil_r.
    + destruct (Ascii.eqb c Str.dot); [by eexists | apply IH].
Qed.

Lemma Ext_suffix (name : string) :
  exists base, name = base +:+ filepath.Ext name.
Proof.
  destruct (extScan_suffix (rev (list_ascii_of_string name)) "") as [front H].
  exists front. unfold filepath.Ext. rewrite <- H.
  by rewrite rev_involutive, string_of_list_ascii_of_string, append_nil_r.
Qed.

Lemma outputPathOf_unfold (p : IWorkProcessor) (name : string) :
  outputPathOf p name
  = filepath.Join
      [outputDir p;
       Str.TrimSuffix name (filepath.Ext name) +:+ formatSuffix (format p)].
Proof. unfold outputPathOf, formatSuffix. by destruct (String.eqb (format p) "txt"). Qed.

End PathFacts.

(** ** The file filter *)

Section Filter.


Lemma collectIWork_acc (entries : list Entry) (acc : list FileInfo) :
  fold_left
    (fun iworkFiles entry =>
       match selectEntry entry with
       | Some f => iworkFiles ++ [f]
       | None => iworkFiles
       end) entries acc
  = acc ++ omap selectEntry entries.
Proof.
  revert acc. induction entries as [|e entries IH]; intros acc; simpl.
  - by rewrite app_nil_r.
  - rewrite IH. destruct (selectEntry e); [by rewrite <- app_assoc | done].
Qed.

Lemma collectIWork_omap (entries : list Entry) :
  collectIWork entries = omap selectEntry entries.
Proof. unfold collectIWork. by rewrite collectIWork_acc. Qed.


End Filter.

(** ** Accounting of the batch loop *)

Ltac unfold_monad :=
  unfold bind, ret, tick, updFs, getFs, log_Print, fmt_Print, setFs in *.

Section Accounting.

Variable E : Env.
Variable p : IWorkProcessor.

Lemma processFile_outcome (s : ProcessingSummary) (f : FileInfo) (w : World) :
  exists o, (processFile E p s f w).1 = applyOutcome s o /\ outcomeFor f o.
Proof.
  unfold processFile. unfold_monad.
  repeat case_match; simplify_eq/=.
  - eexists (inr _). split; [done |].
    exists "Failed to download ", e. split; [set_solver | done].
  - eexists (inr _). split; [done |].
    exists "Failed to convert ", e. split; [set_solver | done].
  - eexists (inr _). split; [done |].
    exists "Failed to save enhanced file for ", e. split; [set_solver | done].
  - eexists (inl _). by split.
Qed.

Lemma forEach_outcomes (files : list FileInfo) (s : ProcessingSummary) (w : World) :
  exists outs,
    Forall2 outcomeFor files outs
    /\ (forEach (processFile E p) files s w).1 = fold_left applyOutcome outs s.
Proof.
  revert s w. induction files as [|f files IH]; intros s w.
  - exists []. by split.
  - destruct (processFile_outcome s f w) as (o & Ho & Hf).
    simpl. unfold bind.
    destruct (processFile E p s f w) as [s1 w1]. simpl in Ho. subst s1.
    destruct (IH (applyOutcome s o) w1) as (outs & Houts & Hrun).
    exists (o :: outs). split; [by constructor | done].
Qed.

Lemma fold_applyOutcome (outs : list Outcome) (s : ProcessingSummary) :
  let s' := fold_left applyOutcome outs s in
  TotalFiles s' = TotalFiles s
  /\ Successful s' = Successful s + Z.of_nat (length (successes outs))
  /\ Failed s' = Failed s + Z.of_nat (length (failures outs))
  /\ ProcessedFiles s' = ProcessedFiles s ++ successes outs
  /\ Errors s' = Errors s ++ failures outs
  /\ StartTime s' = StartTime s.
Proof.
  revert s. induction outs as [|o outs IH]; intros s; simpl.
  - rewrite !app_nil_r. repeat split; lia.
  - destruct (IH (applyOutcome s o)) as (H1 & H2 & H3 & H4 & H5 & H6).
    rewrite H1, H2, H3, H4, H5, H6.
    destruct o as [r | m]; simpl; rewrite <- ?app_assoc; repeat split; lia.
Qed.

Lemma successes_failures_length (outs : list Outcome) :
  (length (successes outs) + length (failures outs))%nat = length outs.
Proof.
  induction outs as [|[r | m] outs IH]; simpl; [done | |];
    unfold successes, failures in *; simpl; lia.
Qed.

Lemma GetIWorkFiles_listingAt (bc : BoxClient) (w : World) :
  (GetIWorkFiles E bc w).1 = listingAt E bc (step w).
Proof.
  unfold listingAt, GetIWorkFiles, http_Do, atStep. unfold_monad. simpl.
  repeat case_match; simplify_eq/=; congruence.
Qed.

(** The summary that [ProcessFolder] starts from. *)
Lemma ProcessFolder_summary (w : World) :
  let r := (ProcessFolder E p w).1 in
  match listingAt E (boxClient p) (S (step w)) with
  | (files, None) =>
      r.2 = None
      /\ exists outs,
          Forall2 outcomeFor files outs
          /\ TotalFiles r.1 = Z.of_nat (length files)
          /\ Successful r.1 = Z.of_nat (length (successes outs))
          /\ Failed r.1 = Z.of_nat (length (failures outs))
          /\ ProcessedFiles r.1 = successes outs
          /\ Errors r.1 = failures outs
  | (_, Some e) =>
      r.2 = Some (Errorf_w "failed to get iWork files: " e)
      /\ TotalFiles r.1 = 0 /\ Successful r.1 = 0 /\ Failed r.1 = 0
      /\ ProcessedFiles r.1 = [] /\ Errors r.1 = []
  end.
Proof.
  destruct (ProcessFolder E p w) as [[s err] w'] eqn:Hrun. simpl.
  pose (w1 := {| fs := fs w; step := S (step w); sent := sent w;
                 logs := logs w; stdout := stdout w |}).
  change (S (step w)) with (step w1).
  rewrite <- GetIWorkFiles_listingAt.
  unfold ProcessFolder, time_Now in Hrun. unfold_monad. simpl in Hrun.
  fold w1 in Hrun.
  destruct (GetIWorkFiles E (boxClient p) w1) as [[files [e |]] w2]; simpl.
  - by simplify_eq/=.
  - destruct files as [|f files].
    + simplify_eq/=. split; [done |].
      exists []. repeat split; constructor.
    + cbn [length] in Hrun. rewrite Nat2Z.inj_succ in Hrun.
      destruct (Z.eqb_spec (Z.succ (Z.of_nat (length files))) 0) as [Hz | Hz]; [lia |].
      match type of Hrun with
      | context [forEach (processFile E p) ?fl ?s0 ?w0] =>
          destruct (forEach_outcomes fl s0 w0) as (outs & Houts & Hfold);
          destruct (fold_applyOutcome outs s0) as (H1 & H2 & H3 & H4 & H5 & H6);
          destruct (forEach (processFile E p) fl s0 w0) as [s3 w3]
      end.
      simpl in Hfold. subst s3. simplify_eq/=.
      split; [done |]. exists outs.
      rewrite H1, H2, H3, H4, H5. simpl.
      repeat split; try done; lia.
Qed.

End Accounting.

(** ** Frame rules *)

Ltac unfold_prims :=
  unfold http_Do, os_Create, io_Copy, os_ReadFile, os_WriteFile, os_Remove,
    time_Now, run_Convert in *;
  unfold_monad.

Create HintDb frame.

Section Frame.

Context {B : Type} (proj : World -> B).

Lemma keeps_ret {A} (a : A) : keeps proj (ret a).
Proof. by intros w. Qed.

Lemma keeps_bind {A C} (m : M A) (k : A -> M C) :
  keeps proj m -> (forall a, keeps proj (k a)) -> keeps proj (bind m k).
Proof.
  intros Hm Hk w. unfold bind.
  specialize (Hm w). destruct (m w) as [a w1]. simpl in Hm.
  by rewrite Hk.
Qed.

Lemma keeps_forEach {A S} (body : S -> A -> M S) (l : list A) (s : S) :
  (forall s a, keeps proj (body s a)) -> keeps proj (forEach body l s).
Proof.
  intros Hb. revert s. induction l as [|a l IH]; intros s; simpl.
  - apply keeps_ret.
  - apply keeps_bind; [apply Hb | apply IH].
Qed.

End Frame.

(** Peel a computation apart and discharge each piece from the hints. *)
Ltac frame :=
  repeat first
    [ apply keeps_ret
    | apply keeps_bind; [| intros ?]
    | apply keeps_forEach; intros ? ?
    | match goal with
      | |- keeps _ (match ?x with _ => _ end) => destruct x
      | |- keeps _ (let _ := _ in _) => cbv zeta
      end
    | solve [eauto with frame] ].

Section FrameFacts.

Variable E : Env.

Lemma tick_sent : keeps sent tick. Proof. by intros w. Qed.
Lemma tick_fs : keeps fs tick. Proof. by intros w. Qed.
Lemma tick_stdout : keeps stdout tick. Proof. by intros w. Qed.
Lemma getFs_keeps {B} (proj : World -> B) : keeps proj getFs.
Proof. by intros w. Qed.
Lemma updFs_sent f : keeps sent (updFs f). Proof. by intros w. Qed.
Lemma updFs_step f : keeps step (updFs f). Proof. by intros w. Qed.
Lemma log_sent l : keeps sent (log_Print l). Proof. by intros w. Qed.
Lemma log_fs l : keeps fs (log_Print l). Proof. by intros w. Qed.
Lemma log_step l : keeps step (log_Print l). Proof. by intros w. Qed.
Lemma print_sent l : keeps sent (fmt_Print l). Proof. by intros w. Qed.
Lemma print_fs l : keeps fs (fmt_Print l). Proof. by intros w. Qed.
Lemma print_step l : keeps step (fmt_Print l). Proof. by intros w. Qed.
Lemma http_Do_fs req : keeps fs (http_Do E req). Proof. by intros w. Qed.

Hint Resolve tick_sent tick_fs getFs_keeps updFs_sent updFs_step log_sent
  log_fs log_step print_sent print_fs print_step http_Do_fs : frame.

Lemma os_Create_sent path : keeps sent (os_Create E path).
Proof. unfold os_Create. frame. Qed.

Lemma io_Copy_sent path resp : keeps sent (io_Copy E path resp).
Proof. unfold io_Copy. frame. Qed.

Lemma os_ReadFile_sent path : keeps sent (os_ReadFile E path).
Proof. unfold os_ReadFile. frame. Qed.

Lemma os_ReadFile_fs path : keeps fs (os_ReadFile E path).
Proof. unfold os_ReadFile. frame. Qed.

Lemma os_WriteFile_sent path data : keeps sent (os_WriteFile E path data).
Proof. unfold os_WriteFile. frame. Qed.

Lemma os_Remove_sent path : keeps sent (os_Remove E path).
Proof. unfold os_Remove. frame. Qed.

Lemma time_Now_sent : keeps sent (time_Now E).
Proof. unfold time_Now. frame. Qed.

Lemma time_Now_fs : keeps fs (time_Now E).
Proof. unfold time_Now. frame. Qed.

Lemma run_Convert_sent conv i o : keeps sent (run_Convert conv i o).
Proof. unfold run_Convert. frame. Qed.

Hint Resolve os_Create_sent io_Copy_sent os_ReadFile_sent os_ReadFile_fs
  os_WriteFile_sent os_Remove_sent time_Now_sent time_Now_fs
  run_Convert_sent : frame.

Lemma ConvertIWorkFile_sent p i o : keeps sent (ConvertIWorkFile E p i o).
Proof. unfold ConvertIWorkFile. frame. Qed.

Lemma SaveFileWithMetadata_sent p o c m :
  keeps sent (SaveFileWithMetadata E p o c m).
Proof. unfold SaveFileWithMetadata. frame. Qed.

Lemma GetIWorkFiles_fs bc : keeps fs (GetIWorkFiles E bc).
Proof. unfold GetIWorkFiles. frame. Qed.

End FrameFacts.

Hint Resolve tick_sent tick_fs getFs_keeps updFs_sent updFs_step log_sent
  log_fs log_step print_sent print_fs print_step http_Do_fs
  os_Create_sent io_Copy_sent os_ReadFile_sent os_ReadFile_fs
  os_WriteFile_sent os_Remove_sent time_Now_sent time_Now_fs
  run_Convert_sent ConvertIWorkFile_sent SaveFileWithMetadata_sent
  GetIWorkFiles_fs : frame.

(** ** Requests sent *)

Section Requests.

Variable E : Env.
Variable p : IWorkProcessor.

Lemma GetIWorkFiles_sent (bc : BoxClient) (w : World) :
  sent (GetIWorkFiles E bc w).2 = sent w ++ issued E (listRequest bc).
Proof.
  unfold GetIWorkFiles, issued, listRequest. unfold_prims. simpl.
  repeat case_match; simplify_eq/=; by rewrite ?app_nil_r.
Qed.

Lemma DownloadFile_sent (bc : BoxClient) (fileID name temp : string) (w : World) :
  sent (DownloadFile E bc fileID name temp w).2
  = sent w ++ issued E (downloadRequest bc fileID).
Proof.
  unfold DownloadFile, issued, downloadRequest. unfold_prims. simpl.
  repeat case_match; simplify_eq/=; by rewrite ?app_nil_r.
Qed.

Lemma processFile_sent (s : ProcessingSummary) (f : FileInfo) (w : World) :
  sent (processFile E p s f w).2
  = sent w ++ issued E (downloadRequest (boxClient p) (ID f)).
Proof.
  unfold processFile.
  unfold bind at 1 2 3. unfold log_Print at 1. unfold time_Now at 1.
  unfold bind at 1. unfold tick at 1. unfold ret at 1.
  match goal with
  | |- context [DownloadFile E ?bc ?i ?n ?t ?w0] =>
      pose proof (DownloadFile_sent bc i n t w0) as Hd;
      destruct (DownloadFile E bc i n t w0) as [[localPath err] w1]
  end.
  simpl in Hd. rewrite <- Hd.
  destruct err as [err |]; [done |].
  match goal with
  | |- sent (?m w1).2 = sent w1 => assert (keeps sent m) as Hk; [| apply Hk]
  end.
  frame.
Qed.

Lemma forEach_sent (files : list FileInfo) (s : ProcessingSummary) (w : World) :
  sent (forEach (processFile E p) files s w).2
  = sent w ++ downloadsOf E (boxClient p) files.
Proof.
  revert s w. induction files as [|f files IH]; intros s w; simpl.
  - by rewrite app_nil_r.
  - unfold bind. pose proof (processFile_sent s f w) as Hf.
    destruct (processFile E p s f w) as [s1 w1]. simpl in Hf.
    rewrite IH, Hf. unfold downloadsOf. simpl. by rewrite app_assoc.
Qed.

End Requests.

(** ** The run of [ProcessFolder], case by case *)

Section Run.

Variable E : Env.
Variable p : IWorkProcessor.

Lemma ProcessFolder_run (w : World) :
  let start := Now E (step w) in
  let '((files, lerr), w2) := GetIWorkFiles E (boxClient p) (tick w).2 in
  match lerr, files with
  | Some e, _ =>
      ProcessFolder E p w
      = ((initSummary start 0, Some (Errorf_w "failed to get iWork files: " e)), w2)
  | None, [] =>
      ProcessFolder E p w
      = ((initSummary start 0, None),
         (log_Print "No iWork files found to process" w2).2)
  | None, _ :: _ =>
      let '(s, w3) :=
        forEach (processFile E p) files
          (initSummary start (Z.of_nat (length files))) w2 in
      ProcessFolder E p w
      = ((finishSummary s (Now E (step w3)), None), (tick w3).2)
  end.
Proof.
  intros start.
  destruct (GetIWorkFiles E (boxClient p) (tick w).2) as [[files lerr] w2] eqn:Hl.
  unfold tick in Hl. simpl in Hl.
  assert (
    ProcessFolder E p w
    = match lerr with
      | Some err => ((initSummary start 0, Some (Errorf_w "failed to get iWork files: " err)), w2)
      | None =>
          if Z.of_nat (length files) =? 0 then
            ((initSummary start (Z.of_nat (length files)), None),
             (log_Print "No iWork files found to process" w2).2)
          else
            let '(s, w3) :=
              forEach (processFile E p) files
                (initSummary start (Z.of_nat (length files))) w2 in
            ((finishSummary s (Now E (step w3)), None), (tick w3).2)
      end) as Heq.
  { unfold ProcessFolder, time_Now, bind, tick, ret.
    cbv beta iota zeta. rewrite Hl. cbv beta iota zeta.
    destruct lerr; [done |].
    destruct (Z.of_nat (length files) =? 0); [done |].
    unfold initSummary, start.
    by destruct (forEach _ _ _ _) as [s3 w3]. }
  destruct lerr as [e |]; [done |].
  destruct files as [|f files]; [done |].
  destruct (Z.eqb_spec (Z.of_nat (length (f :: files))) 0) as [Hz | Hz];
    [simpl in Hz; lia |].
  by destruct (forEach _ _ _ _) as [s3 w3].
Qed.

End Run.

(** ** Lines of the text header *)

Section Lines.

Lemma contains_cons (c d : ascii) (r : string) :
  Str.contains c (String d r) = Ascii.eqb d c || Str.contains c r.
Proof. reflexivity. Qed.

Lemma cutLine_line (l rest : string) :
  Str.contains Str.newline l = false ->
  Str.cutLine (l +:+ Str.nl +:+ rest) = Some (l, rest).
Proof.
  induction l as [|c l IH]; intros H.
  - done.
  - simpl in H. apply orb_false_iff in H as [Hc Hl].
    rewrite append_cons. simpl. rewrite Hc. by rewrite IH.
Qed.

Lemma digit_no_newline (d : Z) :
  0 <= d < 10 -> Ascii.eqb (Str.digit d) Str.newline = false.
Proof.
  intros H.
  assert (d = 0 \/ d = 1 \/ d = 2 \/ d = 3 \/ d = 4 \/ d = 5 \/ d = 6
          \/ d = 7 \/ d = 8 \/ d = 9) as Hd by lia.
  repeat (destruct Hd as [-> | Hd]; [reflexivity |]). by subst.
Qed.

Lemma digits_no_newline (fuel : nat) (u : Z) (acc : string) :
  Str.contains Str.newline acc = false ->
  Str.contains Str.newline (Str.digits fuel u acc) = false.
Proof.
  revert u acc. induction fuel as [|fuel IH]; intros u acc Hacc; [done |].
  cbn [Str.digits].
  assert (Str.contains Str.newline (String (Str.digit (u mod 10)) acc) = false)
    as Hnext.
  { rewrite contains_cons, digit_no_newline by (apply Z.mod_pos_bound; lia). done. }
  destruct (u / 10 =? 0); [done | by apply IH].
Qed.

Lemma Itoa_no_newline (x : Z) : Str.contains Str.newline (Str.Itoa x) = false.
Proof.
  unfold Str.Itoa. destruct (x <? 0).
  - rewrite contains_cons. by rewrite digits_no_newline.
  - by rewrite digits_no_newline.
Qed.

Lemma Repeat_no_newline (c : ascii) (n : nat) :
  Ascii.eqb c Str.newline = false ->
  Str.contains Str.newline (Str.Repeat (String c "") n) = false.
Proof.
  intros Hc. induction n as [|n IH]; [done |].
  cbn [Str.Repeat]. rewrite append_cons, contains_cons. by rewrite Hc.
Qed.

Lemma padInt_no_newline (x : Z) (width : nat) :
  Str.contains Str.newline (Str.padInt x width) = false.
Proof.
  unfold Str.padInt.
  destruct (x <? 0); rewrite ?contains_cons, contains_append;
    by rewrite Repeat_no_newline, digits_no_newline.
Qed.

Lemma FormatRFC3339_no_newline (t : time.Time) :
  Str.contains Str.newline (time.FormatRFC3339 t) = false.
Proof.
  unfold time.FormatRFC3339, time.zone.
  destruct (time.date t) as [[y mo] d]. destruct (time.clock t) as [[h mi] s].
  destruct (time.offset t =? 0); [| destruct (Z.quot _ _ <? 0)];
    rewrite ?contains_append, ?padInt_no_newline; reflexivity.
Qed.

Lemma cutLines_lines (ls : list string) (rest : string) :
  Forall (fun l => Str.contains Str.newline l = false) ls ->
  Str.cutLines (length ls) (foldr (fun l acc => l +:+ Str.nl +:+ acc) rest ls)
  = Some (ls, rest).
Proof.
  induction 1 as [|l ls Hl _ IH]; [done |].
  cbn [length foldr Str.cutLines]. by rewrite cutLine_line, IH.
Qed.

Lemma metadataHeader_lines (metadata : FileInfo) (now : time.Time) (content : string) :
  metadataHeader metadata now +:+ content
  = foldr (fun l acc => l +:+ Str.nl +:+ acc) content (headerLines metadata now).
Proof.
  unfold metadataHeader, headerLines. cbn [foldr].
  rewrite !append_assoc. reflexivity.
Qed.

Lemma headerLines_no_newline (metadata : FileInfo) (now : time.Time) :
  Str.contains Str.newline (Name metadata) = false ->
  Str.contains Str.newline (ID metadata) = false ->
  Str.contains Str.newline (Extension metadata) = false ->
  Forall (fun l => Str.contains Str.newline l = false) (headerLines metadata now).
Proof.
  intros Hn Hi He. unfold headerLines.
  repeat constructor;
    rewrite ?contains_append, ?Hn, ?Hi, ?He, ?Itoa_no_newline,
      ?FormatRFC3339_no_newline; reflexivity.
Qed.

Lemma header_cutLines (metadata : FileInfo) (now : time.Time) (content : string) :
  Str.contains Str.newline (Name metadata) = false ->
  Str.contains Str.newline (ID metadata) = false ->
  Str.contains Str.newline (Extension metadata) = false ->
  Str.cutLines 9 (metadataHeader metadata now +:+ content)
  = Some (headerLines metadata now, content).
Proof.
  intros Hn Hi He. rewrite metadataHeader_lines.
  apply (cutLines_lines (headerLines metadata now)).
  by apply headerLines_no_newline.
Qed.

End Lines.

(** ** The text header *)

Section TextHeader.

Variable E : Env.
Variable p : IWorkProcessor.

(** A successful enrichment in text mode read the converted file, took the
    time, and wrote the header followed by what it read. *)
Lemma SaveFileWithMetadata_txt (orig conv : string) (metadata : FileInfo)
    (w w' : World) (path : string) :
  format p = "txt" ->
  SaveFileWithMetadata E p orig conv metadata w = ((path, None), w') ->
  exists content,
    fs w !! conv = Some content
    /\ path = conv
    /\ fs w' !! conv
       = Some (metadataHeader metadata (Now E (S (step w))) +:+ content).
Proof.
  intros Hfmt Hrun.
  unfold SaveFileWithMetadata in Hrun. rewrite Hfmt in Hrun.
  change (negb (String.eqb "txt" "txt")) with false in Hrun.
  cbv beta iota in Hrun.
  remember (metadataHeader metadata) as header eqn:Hheader.
  unfold_prims. simpl in Hrun.
  destruct (ReadFault E (step w) conv); simpl in Hrun; [by inversion Hrun |].
  destruct (fs w !! conv) as [content |] eqn:Hread; simpl in Hrun;
    [| by inversion Hrun].
  exists content.
  destruct (WriteFileFault E (S (S (step w))) conv) as [[e | k e] |];
    simpl in Hrun; inversion Hrun; subst.
  split; [done |]. split; [done |].
  simpl. by rewrite lookup_insert_eq.
Qed.

End TextHeader.

(** ** Errors of the two remote operations *)

Section RemoteErrors.

Variable E : Env.
Variable bc : BoxClient.

Lemma GetIWorkFiles_status (w : World) (resp : Response) :
  NewRequest E "GET" (URL (listRequest bc)) = None ->
  Do E (step w) (listRequest bc) = inr resp ->
  StatusCode resp <> 200 ->
  (GetIWorkFiles E bc w).1
  = ([], Some (errorString ("Box API error: " +:+ Status resp))).
Proof.
  intros Hreq Hdo Hcode. apply Z.eqb_neq in Hcode.
  unfold GetIWorkFiles, listRequest in *. simpl in Hreq. rewrite Hreq.
  unfold_prims. simpl. rewrite Hdo. unfold StatusOK. by rewrite Hcode.
Qed.

Lemma GetIWorkFiles_transport (w : World) (cause : error) :
  NewRequest E "GET" (URL (listRequest bc)) = None ->
  Do E (step w) (listRequest bc) = inl cause ->
  (GetIWorkFiles E bc w).1
  = ([], Some (wrapError ("failed to make request: " +:+ Error cause) cause)).
Proof.
  intros Hreq Hdo.
  unfold GetIWorkFiles, listRequest in *. simpl in Hreq. rewrite Hreq.
  unfold_prims. simpl. by rewrite Hdo.
Qed.

Lemma DownloadFile_status (fileID name temp : string) (w : World) (resp : Response) :
  NewRequest E "GET" (URL (downloadRequest bc fileID)) = None ->
  Do E (step w) (downloadRequest bc fileID) = inr resp ->
  StatusCode resp <> 200 ->
  (DownloadFile E bc fileID name temp w).1
  = ("", Some (errorString ("download failed with status: " +:+ Status resp))).
Proof.
  intros Hreq Hdo Hcode. apply Z.eqb_neq in Hcode.
  unfold DownloadFile, downloadRequest in *. simpl in Hreq. rewrite Hreq.
  unfold_prims. simpl. rewrite Hdo. unfold StatusOK. by rewrite Hcode.
Qed.

Lemma DownloadFile_transport (fileID name temp : string) (w : World) (cause : error) :
  NewRequest E "GET" (URL (downloadRequest bc fileID)) = None ->
  Do E (step w) (downloadRequest bc fileID) = inl cause ->
  (DownloadFile E bc fileID name temp w).1
  = ("", Some (wrapError ("failed to download file: " +:+ Error cause) cause)).
Proof.
  intros Hreq Hdo.
  unfold DownloadFile, downloadRequest in *. simpl in Hreq. rewrite Hreq.
  unfold_prims. simpl. by rewrite Hdo.
Qed.

End RemoteErrors.

(** ** The scratch file *)

Section Scratch.

Variable E : Env.
Variable p : IWorkProcessor.

Lemma os_Remove_gone (path : string) (w : World) :
  (forall n, RemoveFault E n path = None) ->
  fs (os_Remove E path w).2 !! path = None.
Proof.
  intros Hrm. unfold_prims. simpl. rewrite Hrm.
  destruct (fs w !! path) eqn:Hp; simpl; [apply lookup_delete_eq | done].
Qed.

Lemma Remove_then_ret_gone {A} (path : string) (a : A) (w : World) :
  (forall n, RemoveFault E n path = None) ->
  fs ((run os_Remove E path; ret a) w).2 !! path = None.
Proof.
  intros Hrm. unfold bind. pose proof (os_Remove_gone path w Hrm) as Hg.
  by destruct (os_Remove E path w) as [x w1].
Qed.

Lemma bind_Remove_gone {A} (m : M A) (path : string) (w : World) :
  (forall n, RemoveFault E n path = None) ->
  fs ((do x <- m; run os_Remove E path; ret x) w).2 !! path = None.
Proof.
  intros Hrm. unfold bind at 1. destruct (m w) as [x w1].
  by apply Remove_then_ret_gone.
Qed.

(** [DownloadFile] returns the path under the temp directory, or an error
    and the empty path. *)
Lemma DownloadFile_result (bc : BoxClient) (fileID name temp : string) (w : World) :
  (DownloadFile E bc fileID name temp w).1 = (filepath.Join [temp; name], None)
  \/ exists e, (DownloadFile E bc fileID name temp w).1 = ("", Some e).
Proof.
  unfold DownloadFile. unfold_prims. simpl.
  repeat case_match; simplify_eq/=; eauto.
Qed.

(** Unless the download failed, the scratch file is gone when the iteration
    ends, provided [os.Remove] itself does not fail. *)
Lemma scratch_removed_unless_download_failed
    (s : ProcessingSummary) (f : FileInfo) (w : World) :
  (forall n path, RemoveFault E n path = None) ->
  let r := processFile E p s f w in
  fs r.2 !! filepath.Join [tempDir p; Name f] = None
  \/ exists e,
       r.1 = recordFailure s ("Failed to download " +:+ Name f +:+ ": " +:+ Error e).
Proof.
  intros Hrm r. subst r.
  remember (processFile E p s f w) as res eqn:Hres.
  unfold processFile in Hres.
  unfold bind at 1 2 3 in Hres. unfold log_Print at 1 in Hres.
  unfold time_Now at 1 in Hres.
  unfold bind at 1 in Hres. unfold tick at 1 in Hres. unfold ret at 1 in Hres.
  match type of Hres with
  | context [DownloadFile E ?bc ?i ?n ?t ?w0] =>
      destruct (DownloadFile_result bc i n t w0) as [Hd | [e Hd]];
      destruct (DownloadFile E bc i n t w0) as [[localPath err] w1]
  end; simpl in Hd; simplify_eq.
  - left. unfold bind at 1.
    destruct (ConvertIWorkFile E p _ _ w1) as [[err |] w2].
    + by apply Remove_then_ret_gone.
    + unfold bind at 1.
      destruct (SaveFileWithMetadata E p _ _ f w2) as [[finalPath err] w3].
      by apply bind_Remove_gone.
  - right. by exists e.
Qed.

End Scratch.

(** ** The three ways a run of [ProcessFolder] can go *)

Section RunFacts.

Variable E : Env.
Variable p : IWorkProcessor.

Lemma GetIWorkFiles_step_ok (bc : BoxClient) (w : World) :
  (GetIWorkFiles E bc w).1.2 = None ->
  step (GetIWorkFiles E bc w).2 = S (step w).
Proof.
  unfold GetIWorkFiles. unfold_prims. simpl.
  repeat case_match; simplify_eq/=; done.
Qed.

(** A successful listing is the filter applied to the decoded entries. *)
Lemma listingAt_ok (bc : BoxClient) (n : nat) (files : list FileInfo) :
  listingAt E bc n = (files, None) ->
  exists resp entries,
    Do E n (listRequest bc) = inr resp
    /\ Decode E resp = inr entries
    /\ files = omap selectEntry entries.
Proof.
  unfold listingAt, GetIWorkFiles, listRequest, atStep. unfold_prims. simpl.
  repeat case_match; simplify_eq/=; intros; simplify_eq.
  eexists _, _. rewrite <- collectIWork_omap. eauto.
Qed.

Lemma listing_world (w : World) :
  let l := GetIWorkFiles E (boxClient p) (tick w).2 in
  l.1 = listingAt E (boxClient p) (S (step w))
  /\ fs l.2 = fs w
  /\ sent l.2 = sent w ++ issued E (listRequest (boxClient p))
  /\ (l.1.2 = None -> step l.2 = S (S (step w))).
Proof.
  intros l. subst l. split; [by rewrite GetIWorkFiles_listingAt |].
  split; [by rewrite GetIWorkFiles_fs |].
  split; [by rewrite GetIWorkFiles_sent |].
  intros H. by rewrite GetIWorkFiles_step_ok.
Qed.

Lemma ProcessFolder_listing_failed (w : World) (files : list FileInfo) (e : error) :
  listingAt E (boxClient p) (S (step w)) = (files, Some e) ->
  exists w',
    ProcessFolder E p w
    = ((initSummary (Now E (step w)) 0,
        Some (Errorf_w "failed to get iWork files: " e)), w')
    /\ fs w' = fs w
    /\ sent w' = sent w ++ issued E (listRequest (boxClient p)).
Proof.
  intros Hl. pose proof (ProcessFolder_run E p w) as Hrun.
  destruct (listing_world w) as (H1 & H2 & H3 & _).
  destruct (GetIWorkFiles E (boxClient p) (tick w).2) as [[fl lerr] w2].
  simpl in *. rewrite Hl in H1. simplify_eq. by exists w2.
Qed.

Lemma ProcessFolder_no_candidates (w : World) :
  listingAt E (boxClient p) (S (step w)) = ([], None) ->
  exists w',
    ProcessFolder E p w = ((initSummary (Now E (step w)) 0, None), w')
    /\ fs w' = fs w
    /\ step w' = S (S (step w))
    /\ sent w' = sent w ++ issued E (listRequest (boxClient p)).
Proof.
  intros Hl. pose proof (ProcessFolder_run E p w) as Hrun.
  destruct (listing_world w) as (H1 & H2 & H3 & H4).
  destruct (GetIWorkFiles E (boxClient p) (tick w).2) as [[fl lerr] w2].
  simpl in *. rewrite Hl in H1. simplify_eq.
  eexists. split; [exact Hrun |]. simpl. by rewrite H4.
Qed.

Lemma ProcessFolder_candidates (w : World) (files : list FileInfo) :
  listingAt E (boxClient p) (S (step w)) = (files, None) ->
  (ProcessFolder E p w).1.2 = None
  /\ sent (ProcessFolder E p w).2
     = sent w ++ issued E (listRequest (boxClient p))
         ++ downloadsOf E (boxClient p) files.
Proof.
  intros Hl. pose proof (ProcessFolder_run E p w) as Hrun.
  destruct (listing_world w) as (H1 & H2 & H3 & H4).
  destruct (GetIWorkFiles E (boxClient p) (tick w).2) as [[fl lerr] w2].
  simpl in *. rewrite Hl in H1. simplify_eq.
  destruct files as [|f files].
  - rewrite Hrun. simpl. rewrite H3. unfold downloadsOf. simpl.
    by rewrite !app_nil_r.
  - pose proof (forEach_sent E p (f :: files)
                  (initSummary (Now E (step w)) (Z.of_nat (length (f :: files))))
                  w2) as Hs.
    destruct (forEach _ _ _ _) as [s3 w3].
    rewrite Hrun. simpl in *. rewrite Hs, H3. by rewrite <- app_assoc.
Qed.

End RunFacts.

(** ** The Box branch of [main] *)

Section Main.

Variable E : Env.

Lemma yields_ret {A} (a : A) : yields (ret a) a.
Proof. by intros w. Qed.

Lemma yields_bind {A B} (m : M A) (k : A -> M B) (b : B) :
  (forall a, yields (k a) b) -> yields (bind m k) b.
Proof. intros Hk w. unfold bind. destruct (m w) as [a w1]. apply Hk. Qed.

(** [GenerateReport] when marshalling and writing succeed. *)
Lemma GenerateReport_written (p : IWorkProcessor) (s : ProcessingSummary)
    (w : World) (data : string) :
  let reportPath :=
    filepath.Join
      [outputDir p;
       "processing_report_" +:+ time.FormatStamp (Now E (step w)) +:+ ".json"] in
  MarshalIndent E s = inr data ->
  WriteFileFault E (S (step w)) reportPath = None ->
  exists w',
    GenerateReport E p s w = ((reportPath, None), w')
    /\ fs w' = <[reportPath := data]> (fs w).
Proof.
  intros reportPath Hm Hw. subst reportPath.
  unfold GenerateReport, time_Now, os_WriteFile, bind, tick, ret, updFs,
    log_Print, setFs.
  cbv beta iota zeta. cbn [fs step sent logs stdout].
  rewrite Hm. cbv beta iota zeta. cbn [fs step sent logs stdout].
  rewrite Hw. cbv beta iota zeta. cbn [fs step sent logs stdout].
  by eexists.
Qed.

Lemma mainBox_unfold (token folder output temp fmt : string) (w : World) :
  let processor := NewIWorkProcessor (NewBoxClient token folder) temp output fmt in
  mainBox E token folder output temp fmt w
  = match ProcessFolder E processor (afterBanner folder fmt output w) with
    | ((summary, Some err), w1) =>
        (Exited 1, (log_Print ("Processing failed: " +:+ Error err) w1).2)
    | ((summary, None), w1) => afterProcessing E processor output summary w1
    end.
Proof.
  intros processor. unfold mainBox. fold processor.
  unfold bind at 1 2 3 4 5. unfold fmt_Print at 1 2 3 4. cbv beta iota.
  cbn [fs step sent logs stdout]. rewrite <- !app_assoc. simpl app.
  fold (afterBanner folder fmt output w).
  destruct (ProcessFolder E processor (afterBanner folder fmt output w))
    as [[summary [err |]] w1]; reflexivity.
Qed.

Lemma afterProcessing_returns (processor : IWorkProcessor) (output : string)
    (summary : ProcessingSummary) :
  yields (afterProcessing E processor output summary) Returned.
Proof.
  unfold afterProcessing.
  apply yields_bind. intros [reportPath err].
  repeat (apply yields_bind; intros ?).
  apply yields_ret.
Qed.

Lemma afterProcessing_report (processor : IWorkProcessor) (output : string)
    (summary : ProcessingSummary) (w : World) (data : string) :
  let reportPath :=
    filepath.Join
      [outputDir processor;
       "processing_report_" +:+ time.FormatStamp (Now E (step w)) +:+ ".json"] in
  MarshalIndent E summary = inr data ->
  WriteFileFault E (S (step w)) reportPath = None ->
  fs (afterProcessing E processor output summary w).2
  = <[reportPath := data]> (fs w).
Proof.
  intros reportPath Hm Hw.
  destruct (GenerateReport_written processor summary w data Hm Hw)
    as (w' & Hg & Hfs).
  fold reportPath in Hg, Hfs.
  unfold afterProcessing. unfold bind at 1. rewrite Hg. rewrite <- Hfs.
  match goal with
  | |- fs (?m w').2 = fs w' => assert (keeps fs m) as Hk; [| apply Hk]
  end.
  frame.
Qed.

End Main.

(** * The claims *)

(** C1.  Whatever the outside does, the summary returned by [ProcessFolder]
    satisfies [Successful + Failed = TotalFiles], has as many records in
    [ProcessedFiles] as [Successful] and as many messages in [Errors] as
    [Failed]; and when the listing succeeded, the candidates and their
    outcomes are in one-to-one correspondence: each candidate leaves one
    record (in [ProcessedFiles]) or one message (in [Errors]), never both
    and never neither.  When the listing failed all counts are zero. *)
Theorem C1_summary_accounting (E : Env) (p : IWorkProcessor) (w : World) :
  let s := (ProcessFolder E p w).1.1 in
  Successful s + Failed s = TotalFiles s
  /\ Z.of_nat (length (ProcessedFiles s)) = Successful s
  /\ Z.of_nat (length (Errors s)) = Failed s
  /\ match listingAt E (boxClient p) (S (step w)) with
     | (files, None) =>
         exists outs : list Outcome,
           Forall2 outcomeFor files outs
           /\ TotalFiles s = Z.of_nat (length files)
           /\ ProcessedFiles s = successes outs
           /\ Errors s = failures outs
     | (_, Some _) => TotalFiles s = 0 /\ ProcessedFiles s = [] /\ Errors s = []
     end.
Proof.
  intros s. subst s.
  pose proof (ProcessFolder_summary E p w) as H. simpl in H.
  destruct (listingAt E (boxClient p) (S (step w))) as [files [e |]].
  - destruct H as (_ & H1 & H2 & H3 & H4 & H5).
    rewrite H1, H2, H3, H4, H5. by repeat split.
  - destruct H as (_ & outs & Hall & H1 & H2 & H3 & H4 & H5).
    rewrite H1, H2, H3, H4, H5.
    pose proof (successes_failures_length outs) as Hlen.
    pose proof (Forall2_length _ _ _ Hall) as Hfiles.
    repeat split; try lia.
    exists outs. repeat split; try done.
Qed.

(** C2.  No scratch file should outlive the iteration of its candidate,
    whatever fails.  The code leaves one behind when a download breaks
    while the body is copied: [DownloadFile] has created the file, returns
    an error, and [ProcessFolder] goes on to the next candidate without
    removing it.  Here the listing holds [Doc1.pages]; its download is
    answered with 200 and breaks after three bytes; the run ends with the
    three bytes still in the temp directory. *)
Theorem C2_partial_download_left_behind :
  let E := Sample.env (Sample.server (inr Sample.truncated)) [Sample.doc1] in
  let r := ProcessFolder E (Sample.processor "txt") Sample.emptyWorld in
  r.1.2 = None
  /\ Errors r.1.1
     = ["Failed to download Doc1.pages: failed to write file: unexpected EOF"]
  /\ Failed r.1.1 = 1
  /\ fs r.2 !! "temp/Doc1.pages" = Some "PAG".
Proof. vm_compute. repeat split; reflexivity. Qed.

(** C3, in the form that holds of the code.  In text mode a successful
    enrichment rewrites the converted file so that it begins with the six
    header lines in the order name, identifier, size, modification time
    (RFC 3339), extraction time (RFC 3339), lower-case extension; then
    comes an empty line, then a separator line of 50 dashes, then another
    empty line, then the converted content as it was read.  (Name,
    identifier and extension are taken to be free of line breaks.) *)
Theorem C3_text_header_layout (E : Env) (p : IWorkProcessor)
    (orig conv path : string) (metadata : FileInfo) (w w' : World) :
  format p = "txt" ->
  Str.contains Str.newline (Name metadata) = false ->
  Str.contains Str.newline (ID metadata) = false ->
  Str.contains Str.newline (Extension metadata) = false ->
  SaveFileWithMetadata E p orig conv metadata w = ((path, None), w') ->
  exists content out,
    fs w !! conv = Some content
    /\ path = conv
    /\ fs w' !! conv = Some out
    /\ Str.cutLines 9 out
       = Some (["# Extracted from: " +:+ Name metadata;
                "# File ID: " +:+ ID metadata;
                "# Size: " +:+ Str.Itoa (Size metadata) +:+ " bytes";
                "# Modified: " +:+ time.FormatRFC3339 (ModifiedAt metadata);
                "# Extracted: " +:+ time.FormatRFC3339 (Now E (S (step w)));
                "# Extension: " +:+ Extension metadata;
                "";
                Str.Repeat "-" 50;
                ""], content)
    /\ String.length (Str.Repeat "-" 50) = 50%nat.
Proof.
  intros Hfmt Hn Hi He Hrun.
  destruct (SaveFileWithMetadata_txt E p orig conv metadata w w' path Hfmt Hrun)
    as (content & Hread & Hpath & Hout).
  exists content, (metadataHeader metadata (Now E (S (step w))) +:+ content).
  split; [exact Hread |]. split; [exact Hpath |]. split; [exact Hout |].
  split; [| reflexivity].
  exact (header_cutLines metadata (Now E (S (step w))) content Hn Hi He).
Qed.

Lemma C3_text_header_layout_witness :
  let E := Sample.env Sample.offline [] in
  let w := Sample.worldWith {["out/Report_extracted.txt" := "Hello"]} in
  let r := SaveFileWithMetadata E (Sample.processor "txt") "temp/Report.pages"
             "out/Report_extracted.txt" Sample.report w in
  exists content out,
    fs w !! "out/Report_extracted.txt" = Some content
    /\ r.1.1 = "out/Report_extracted.txt"
    /\ fs r.2 !! "out/Report_extracted.txt" = Some out
    /\ Str.cutLines 9 out
       = Some (["# Extracted from: Report.pages";
                "# File ID: 11";
                "# Size: 1024 bytes";
                "# Modified: 2023-11-14T22:13:20Z";
                "# Extracted: 2023-11-14T22:13:21Z";
                "# Extension: .pages";
                "";
                "--------------------------------------------------";
                ""], content)
    /\ String.length (Str.Repeat "-" 50) = 50%nat.
Proof.
  intros E w r.
  apply (C3_text_header_layout E (Sample.processor "txt") "temp/Report.pages"
           "out/Report_extracted.txt" r.1.1 Sample.report w r.2);
    vm_compute; reflexivity.
Defined.

(** C3, as the specification words it, fails: in the file written for
    [Report.pages] with converted content [Hello], the line after the six
    header lines is empty; the separator is only the eighth line. *)
Lemma C3_separator_not_adjacent :
  let E := Sample.env Sample.offline [] in
  let w := Sample.worldWith {["out/Report_extracted.txt" := "Hello"]} in
  let r := SaveFileWithMetadata E (Sample.processor "txt") "temp/Report.pages"
             "out/Report_extracted.txt" Sample.report w in
  r.1 = ("out/Report_extracted.txt", None)
  /\ exists out,
       fs r.2 !! "out/Report_extracted.txt" = Some out
       /\ ~ claimedTextLayout out "Hello".
Proof.
  intros E w r. split; [vm_compute; reflexivity |].
  exists (metadataHeader Sample.report (time.mkTime 1700000001 0 0) +:+ "Hello").
  split; [vm_compute; reflexivity |].
  intros (l1 & l2 & l3 & l4 & l5 & l6 & sep & Hcut & Hlen).
  vm_compute in Hcut. inversion Hcut.
Qed.

(** C4, in the form that holds of the code.  A request answered with a
    status other than 200, the 401 of an absent or expired credential
    included, yields for the listing the plain error ["Box API error: "]
    followed by the status text of the response, and for a download the
    plain error ["download failed with status: "] followed by that text.
    The kind of the error is the same for every status; an unauthorized
    answer shows only in the status text inside the message.  A transport
    failure yields an error of another kind, which wraps its cause. *)
Theorem C4_status_errors_are_plain_text (E : Env) (bc : BoxClient)
    (fileID name temp : string) (w : World) (resp : Response) :
  StatusCode resp <> 200 ->
  (NewRequest E "GET" (URL (listRequest bc)) = None ->
   Do E (step w) (listRequest bc) = inr resp ->
   exists e,
     (GetIWorkFiles E bc w).1 = ([], Some e)
     /\ e = errorString ("Box API error: " +:+ Status resp)
     /\ kindOf e = plainText)
  /\ (NewRequest E "GET" (URL (downloadRequest bc fileID)) = None ->
      Do E (step w) (downloadRequest bc fileID) = inr resp ->
      exists e,
        (DownloadFile E bc fileID name temp w).1 = ("", Some e)
        /\ e = errorString ("download failed with status: " +:+ Status resp)
        /\ kindOf e = plainText)
  /\ (forall cause,
        NewRequest E "GET" (URL (listRequest bc)) = None ->
        Do E (step w) (listRequest bc) = inl cause ->
        exists e,
          (GetIWorkFiles E bc w).1 = ([], Some e)
          /\ Unwrap e = Some cause
          /\ kindOf e = wrapping (kindOf cause))
  /\ (forall cause,
        NewRequest E "GET" (URL (downloadRequest bc fileID)) = None ->
        Do E (step w) (downloadRequest bc fileID) = inl cause ->
        exists e,
          (DownloadFile E bc fileID name temp w).1 = ("", Some e)
          /\ Unwrap e = Some cause
          /\ kindOf e = wrapping (kindOf cause)).
Proof.
  intros Hcode. repeat split.
  - intros Hreq Hdo. eexists. split; [by apply GetIWorkFiles_status |]. by split.
  - intros Hreq Hdo. eexists. split; [by apply DownloadFile_status |]. by split.
  - intros cause Hreq Hdo. eexists.
    split; [by apply GetIWorkFiles_transport |]. by split.
  - intros cause Hreq Hdo. eexists.
    split; [by apply DownloadFile_transport |]. by split.
Qed.

Lemma C4_status_errors_witness :
  let unauthorized := Sample.status 401 "401 Unauthorized" in
  let E := Sample.env (fun _ => inr unauthorized) [] in
  let bc := NewBoxClient "expired" "0" in
  (exists e,
     (GetIWorkFiles E bc Sample.emptyWorld).1 = ([], Some e)
     /\ e = errorString "Box API error: 401 Unauthorized"
     /\ kindOf e = plainText)
  /\ (exists e,
        (DownloadFile E bc "11" "Report.pages" "temp" Sample.emptyWorld).1
        = ("", Some e)
        /\ e = errorString "download failed with status: 401 Unauthorized"
        /\ kindOf e = plainText).
Proof.
  intros unauthorized E bc.
  destruct (C4_status_errors_are_plain_text E bc "11" "Report.pages" "temp"
              Sample.emptyWorld unauthorized) as (Hlist & Hdown & _).
  { simpl. lia. }
  split; [apply Hlist | apply Hdown]; reflexivity.
Defined.

(** C4, as the specification words it, fails: the errors returned for an
    unauthorized answer (401) and for a missing folder or file (404) are of
    the same kind, for the listing and for the download; they differ in the
    status text of the message only. *)
Lemma C4_unauthorized_has_no_kind :
  let E401 := Sample.env (fun _ => inr (Sample.status 401 "401 Unauthorized")) [] in
  let E404 := Sample.env (fun _ => inr (Sample.status 404 "404 Not Found")) [] in
  let bc := NewBoxClient "expired" "0" in
  let w := Sample.emptyWorld in
  exists l401 l404 d401 d404,
    (GetIWorkFiles E401 bc w).1 = ([], Some l401)
    /\ (GetIWorkFiles E404 bc w).1 = ([], Some l404)
    /\ (DownloadFile E401 bc "11" "Report.pages" "temp" w).1 = ("", Some d401)
    /\ (DownloadFile E404 bc "11" "Report.pages" "temp" w).1 = ("", Some d404)
    /\ kindOf l401 = kindOf l404 /\ Unwrap l401 = None /\ Unwrap l404 = None
    /\ kindOf d401 = kindOf d404 /\ Unwrap d401 = None /\ Unwrap d404 = None
    /\ l401 = errorString "Box API error: 401 Unauthorized"
    /\ l404 = errorString "Box API error: 404 Not Found".
Proof.
  intros E401 E404 bc w.
  exists (errorString "Box API error: 401 Unauthorized"),
    (errorString "Box API error: 404 Not Found"),
    (errorString "download failed with status: 401 Unauthorized"),
    (errorString "download failed with status: 404 Not Found").
  repeat split; vm_compute; reflexivity.
Qed.


(** C6.  For a format other than ["txt"], [SaveFileWithMetadata] returns
    the path of the converted file with no error and leaves the world as it
    found it; so after conversion and enrichment the output file holds
    exactly the bytes that [iwork2html.Convert] wrote. *)
Theorem C6_markup_enrichment_noop (E : Env) (p : IWorkProcessor)
    (inputPath convertedPath : string) (metadata : FileInfo) (w : World) :
  format p <> "txt" ->
  SaveFileWithMetadata E p inputPath convertedPath metadata w
  = ((convertedPath, None), w)
  /\ let converted :=
       html_Convert E (step w) inputPath convertedPath (fs w !! inputPath) in
     let w1 := (ConvertIWorkFile E p inputPath convertedPath w).2 in
     let w2 := (SaveFileWithMetadata E p inputPath convertedPath metadata w1).2 in
     forall data, written converted = Some data ->
                  fs w2 !! convertedPath = Some data.
Proof.
  intros Hfmt. apply String.eqb_neq in Hfmt.
  assert (forall w0, SaveFileWithMetadata E p inputPath convertedPath metadata w0
                     = ((convertedPath, None), w0)) as Hsave.
  { intros w0. unfold SaveFileWithMetadata. by rewrite Hfmt. }
  split; [apply Hsave |].
  intros converted w1 w2 data Hdata. subst w2. rewrite Hsave. simpl.
  subst w1. unfold ConvertIWorkFile. rewrite Hfmt.
  unfold run_Convert. unfold_monad. simpl.
  fold converted. rewrite Hdata. simpl. apply lookup_insert_eq.
Qed.

Lemma C6_markup_enrichment_noop_witness :
  let E := Sample.env Sample.offline [] in
  let w := Sample.worldWith {["temp/Report.pages" := "PAGES"]} in
  SaveFileWithMetadata E (Sample.processor "html") "temp/Report.pages"
    "out/Report_converted.html" Sample.report w
  = (("out/Report_converted.html", None), w).
Proof.
  intros E w.
  apply (C6_markup_enrichment_noop E (Sample.processor "html")
           "temp/Report.pages" "out/Report_converted.html" Sample.report w).
  simpl. discriminate.
Defined.



(** C8.  Every name splits into a base name and the extension that
    [filepath.Ext] finds, and the output path is the output directory joined
    with the base name followed by [_extracted.txt] for the format ["txt"]
    and by [_converted.html] for any other format.  The extension does not
    enter the path: two names with the same base name and different
    extensions get the same output path. *)
Theorem C8_output_path (p : IWorkProcessor) (name base ext ext' : string) :
  (exists b,
     name = b +:+ filepath.Ext name
     /\ outputPathOf p name
        = filepath.Join
            [outputDir p;
             b +:+ (if String.eqb (format p) "txt" then "_extracted.txt"
                    else "_converted.html")])
  /\ (isExtension ext = true -> isExtension ext' = true ->
      outputPathOf p (base +:+ ext)
      = filepath.Join [outputDir p; base +:+ formatSuffix (format p)]
      /\ outputPathOf p (base +:+ ext) = outputPathOf p (base +:+ ext')).
Proof.
  split.
  - destruct (Ext_suffix name) as [b Hb]. exists b. split; [done |].
    rewrite outputPathOf_unfold. unfold formatSuffix.
    rewrite Hb at 1. by rewrite TrimSuffix_append.
  - intros He He'.
    rewrite !outputPathOf_unfold, !Ext_append by done.
    by rewrite !TrimSuffix_append.
Qed.

Lemma C8_output_path_witness :
  let p := NewIWorkProcessor (NewBoxClient "token" "0") "./temp" "./extracted" "txt" in
  outputPathOf p "Report.pages" = "extracted/Report_extracted.txt"
  /\ outputPathOf p "Report.pages" = outputPathOf p "Report.key".
Proof.
  intros p.
  destruct (C8_output_path p "Report.pages" "Report" ".pages" ".key")
    as [_ H].
  destruct (H eq_refl eq_refl) as [H1 H2].
  split; [exact H1 | exact H2].
Defined.

(** C9.  The filter keeps the entries of the listing in their order; the
    download requests of a run are those of the candidates, in that order
    and one for each (none is repeated); and the records of
    [ProcessedFiles] and the messages of [Errors] are the outcomes of the
    candidates in that same order. *)
Theorem C9_discovery_order (E : Env) (p : IWorkProcessor) (w : World)
    (entries : list Entry) :
  collectIWork entries = omap selectEntry entries
  /\ sublist (Name <$> collectIWork entries) (entryName <$> entries)
  /\ let r := ProcessFolder E p w in
     match listingAt E (boxClient p) (S (step w)) with
     | (files, None) =>
         (exists resp listed,
            Do E (S (step w)) (listRequest (boxClient p)) = inr resp
            /\ Decode E resp = inr listed
            /\ files = omap selectEntry listed)
         /\ sent r.2
            = sent w ++ issued E (listRequest (boxClient p))
                ++ downloadsOf E (boxClient p) files
         /\ sublist (OriginalFile <$> ProcessedFiles r.1.1) (Name <$> files)
         /\ exists outs : list Outcome,
              Forall2 outcomeFor files outs
              /\ ProcessedFiles r.1.1 = successes outs
              /\ Errors r.1.1 = failures outs
     | (_, Some _) =>
         sent r.2 = sent w ++ issued E (listRequest (boxClient p))
         /\ ProcessedFiles r.1.1 = [] /\ Errors r.1.1 = []
     end.
Proof.
  split; [apply collectIWork_omap |]. split.
  - rewrite collectIWork_omap.
    induction entries as [|e es IH]; [constructor |].
    cbn [omap list_omap]. rewrite fmap_cons.
    destruct (selectEntry e) as [f |] eqn:Hsel.
    + assert (Name f = entryName e) as Hname.
      { unfold selectEntry in Hsel. repeat case_match; by simplify_eq/=. }
      rewrite fmap_cons, Hname. by constructor.
    + by constructor.
  - intros r. subst r.
    pose proof (ProcessFolder_summary E p w) as Hs. simpl in Hs.
    destruct (listingAt E (boxClient p) (S (step w))) as [files [e |]] eqn:Hl.
    + destruct (ProcessFolder_listing_failed E p w files e Hl) as (w1 & H1 & _ & H3).
      rewrite H1. by simpl.
    + destruct Hs as (_ & outs & Hall & _ & _ & _ & Hproc & Herrors).
      destruct (ProcessFolder_candidates E p w files Hl) as (_ & Hsent).
      split; [by apply listingAt_ok |].
      split; [exact Hsent |].
      split; [| by exists outs].
      rewrite Hproc. clear -Hall.
      induction Hall as [|f o files outs Ho _ IH]; [constructor |].
      unfold successes in *. cbn [omap list_omap]. rewrite fmap_cons.
      destruct o as [record | message].
      * destruct Ho as [Ho _]. rewrite fmap_cons, Ho. by constructor.
      * by constructor.
Qed.

(** C10.  When the listing succeeds without a candidate, [ProcessFolder]
    returns at once (it has read the clock once and sent the listing
    request, nothing more), without error, the summary with all counts
    zero, no records and no messages, the start time set, and [EndTime]
    and [Duration] at their zero values; [main] then goes on to write the
    report: when marshalling and the write succeed, the report file holds
    the marshalled summary and nothing else has changed on disk. *)
Theorem C10_no_candidates (E : Env) (token folder output temp fmt : string)
    (w : World) (data : string) :
  let bc := NewBoxClient token folder in
  let p := NewIWorkProcessor bc temp output fmt in
  let summary :=
    {| TotalFiles := 0; Successful := 0; Failed := 0;
       Errors := []; ProcessedFiles := [];
       StartTime := Now E (step w); EndTime := time.zero; Duration := 0 |} in
  let reportPath :=
    filepath.Join
      [output;
       "processing_report_"
         +:+ time.FormatStamp (Now E (S (S (step w)))) +:+ ".json"] in
  listingAt E bc (S (step w)) = ([], None) ->
  (ProcessFolder E p w).1 = (summary, None)
  /\ step (ProcessFolder E p w).2 = S (S (step w))
  /\ (mainBox E token folder output temp fmt w).1 = Returned
  /\ (MarshalIndent E summary = inr data ->
      WriteFileFault E (S (S (S (step w)))) reportPath = None ->
      fs (mainBox E token folder output temp fmt w).2
      = <[reportPath := data]> (fs w)).
Proof.
  intros bc p summary reportPath Hl.
  destruct (ProcessFolder_no_candidates E p w Hl) as (w1 & H1 & _ & Hcalls & _).
  split; [by rewrite H1 |]. split; [by rewrite H1 |].
  rewrite mainBox_unfold. fold bc. fold p.
  set (w0 := afterBanner folder fmt output w).
  destruct (ProcessFolder_no_candidates E p w0 Hl) as (w2 & H2 & Hfs & Hstep & _).
  rewrite H2. split; [apply afterProcessing_returns |].
  intros Hm Hw.
  change (initSummary (Now E (step w0)) 0) with summary.
  rewrite (afterProcessing_report E p output summary w2 data).
  - rewrite Hstep, Hfs. reflexivity.
  - exact Hm.
  - rewrite Hstep. exact Hw.
Qed.

Lemma C10_no_candidates_witness :
  let E := Sample.env (Sample.server (inl (libError "not asked"))) [Sample.image] in
  let mainRun := mainBox E "token" "0" "out" "temp" "txt" Sample.emptyWorld in
  (ProcessFolder E (Sample.processor "txt") Sample.emptyWorld).1
  = ({| TotalFiles := 0; Successful := 0; Failed := 0;
        Errors := []; ProcessedFiles := [];
        StartTime := time.mkTime 1700000000 0 0; EndTime := time.zero;
        Duration := 0 |}, None)
  /\ mainRun.1 = Returned
  /\ fs mainRun.2
     = {["out/processing_report_20231114_221322.json" := "{total_files: 0}"]}.
Proof.
  intros E mainRun.
  destruct (C10_no_candidates E "token" "0" "out" "temp" "txt"
              Sample.emptyWorld "{total_files: 0}") as (H1 & _ & H2 & H3).
  { vm_compute. reflexivity. }
  split; [exact H1 |]. split; [exact H2 |].
  apply H3; vm_compute; reflexivity.
Defined.

(** ** The scenario of the specification *)

(** The folder holds [Doc1.pages], [Doc2.numbers] and [Image.png]; the
    first downloads and converts, the download of the second fails. *)
Example scenario_partial_failure :
  let E := Sample.env (Sample.server (inr (Sample.ok "PAGES")))
             [Sample.doc1; Sample.doc2; Sample.image] in
  let r := ProcessFolder E (Sample.processor "txt") Sample.emptyWorld in
  r.1.2 = None
  /\ TotalFiles r.1.1 = 2 /\ Successful r.1.1 = 1 /\ Failed r.1.1 = 1
  /\ Errors r.1.1
     = ["Failed to download Doc2.numbers: failed to download file: dial tcp: i/o timeout"]
  /\ OriginalFile <$> ProcessedFiles r.1.1 = ["Doc1.pages"]
  /\ fs r.2 !! "temp/Doc1.pages" = None
  /\ is_Some (fs r.2 !! "out/Doc1_extracted.txt").
Proof. vm_compute. repeat split; try reflexivity. by eexists. Qed.

(** * Further properties of the code *)

(** ** Which files a computation can change *)

Create HintDb touch.

Section Touch.

Context (P : string -> Prop).

Lemma changesOnly_ret {A} (a : A) : changesOnly P (ret a).
Proof. by intros w path _. Qed.

Lemma changesOnly_keeps {A} (m : M A) : keeps fs m -> changesOnly P m.
Proof. intros Hk w path _. by rewrite Hk. Qed.

(** The continuation need only behave on the results that [m] can give. *)
Lemma changesOnly_bind_post {A C} (Q : A -> Prop) (m : M A) (k : A -> M C) :
  changesOnly P m ->
  (forall w, Q (m w).1) ->
  (forall a, Q a -> changesOnly P (k a)) ->
  changesOnly P (bind m k).
Proof.
  intros Hm HQ Hk w path Hpath. unfold bind.
  specialize (Hm w path Hpath). specialize (HQ w).
  destruct (m w) as [a w1]. simpl in *.
  rewrite <- Hm. by apply Hk.
Qed.

Lemma changesOnly_bind {A C} (m : M A) (k : A -> M C) :
  changesOnly P m -> (forall a, changesOnly P (k a)) -> changesOnly P (bind m k).
Proof.
  intros Hm Hk. apply (changesOnly_bind_post (fun _ => True)); auto.
Qed.

Lemma changesOnly_forEach {A S} (body : S -> A -> M S) (l : list A) (s : S) :
  (forall s a, a ∈ l -> changesOnly P (body s a)) ->
  changesOnly P (forEach body l s).
Proof.
  revert s. induction l as [|a l IH]; intros s Hb; simpl.
  - apply changesOnly_ret.
  - apply changesOnly_bind.
    + apply Hb. by left.
    + intros s1. apply IH. intros s2 b Hin. apply Hb. by right.
Qed.

Lemma updFs_insert_changes (path data : string) :
  P path -> changesOnly P (updFs (insert path data)).
Proof.
  intros HP w q Hq. unfold updFs, setFs. simpl.
  apply lookup_insert_ne. by intros ->.
Qed.

Lemma updFs_delete_changes (path : string) :
  P path -> changesOnly P (updFs (delete path)).
Proof.
  intros HP w q Hq. unfold updFs, setFs. simpl.
  apply lookup_delete_ne. by intros ->.
Qed.

End Touch.

Lemma changesOnly_weaken {A} (P Q : string -> Prop) (m : M A) :
  (forall path, P path -> Q path) -> changesOnly P m -> changesOnly Q m.
Proof. intros HPQ Hm w path Hq. apply Hm. intros HP. by apply Hq, HPQ. Qed.

Ltac touch :=
  repeat first
    [ apply changesOnly_ret
    | apply changesOnly_bind; [| intros ?]
    | match goal with
      | |- changesOnly _ (match ?x with _ => _ end) => destruct x
      | |- changesOnly _ (let _ := _ in _) => cbv zeta
      end
    | solve [apply changesOnly_keeps; eauto with frame]
    | solve [eauto with touch] ].

Section TouchFacts.

Variable E : Env.
Context (P : string -> Prop).

Lemma os_Create_changes path : P path -> changesOnly P (os_Create E path).
Proof.
  intros HP. unfold os_Create. pose proof (updFs_insert_changes P path).
  touch.
Qed.

Lemma io_Copy_changes path resp : P path -> changesOnly P (io_Copy E path resp).
Proof.
  intros HP. unfold io_Copy. pose proof (updFs_insert_changes P path).
  touch.
Qed.

Lemma os_WriteFile_changes path data :
  P path -> changesOnly P (os_WriteFile E path data).
Proof.
  intros HP. unfold os_WriteFile. pose proof (updFs_insert_changes P path).
  touch.
Qed.

Lemma os_Remove_changes path : P path -> changesOnly P (os_Remove E path).
Proof.
  intros HP. unfold os_Remove. pose proof (updFs_delete_changes P path).
  touch.
Qed.

Lemma run_Convert_changes conv input output :
  P output -> changesOnly P (run_Convert conv input output).
Proof.
  intros HP. unfold run_Convert. pose proof (updFs_insert_changes P output).
  touch.
Qed.

End TouchFacts.

Hint Resolve updFs_insert_changes updFs_delete_changes os_Create_changes
  io_Copy_changes os_WriteFile_changes os_Remove_changes
  run_Convert_changes : touch.

(** ** Downloading *)

Section Download.

Variable E : Env.
Variable bc : BoxClient.

Lemma DownloadFile_changes (P : string -> Prop) (fileID name temp : string) :
  P (filepath.Join [temp; name]) ->
  changesOnly P (DownloadFile E bc fileID name temp).
Proof. intros HP. unfold DownloadFile. touch. Qed.

Lemma DownloadFile_success (fileID name temp : string) (w w' : World) (path : string) :
  DownloadFile E bc fileID name temp w = ((path, None), w') ->
  exists resp,
    Do E (step w) (downloadRequest bc fileID) = inr resp
    /\ StatusCode resp = 200
    /\ BodyErr resp = None
    /\ path = filepath.Join [temp; name]
    /\ fs w' !! path = Some (Body resp).
Proof.
  unfold DownloadFile, downloadRequest.
  generalize (filepath.Join [temp; name]). intros tempPath.
  unfold_prims. simpl.
  intros Hrun. repeat case_match; simplify_eq/=.
  eexists. split; [reflexivity |].
  match goal with
  | Hc : negb (_ =? StatusOK) = false |- _ =>
      apply negb_false_iff, Z.eqb_eq in Hc
  end.
  repeat split; try done.
  apply lookup_insert_eq.
Qed.

Lemma DownloadFile_refused (fileID name temp : string) (w : World) :
  (forall resp, Do E (step w) (downloadRequest bc fileID) = inr resp ->
                StatusCode resp <> 200) ->
  fs (DownloadFile E bc fileID name temp w).2 = fs w
  /\ exists e, (DownloadFile E bc fileID name temp w).1 = ("", Some e).
Proof.
  unfold DownloadFile, downloadRequest.
  generalize (filepath.Join [temp; name]). intros tempPath.
  unfold_prims. simpl.
  intros Hdo. repeat case_match; simplify_eq/=; eauto.
  all: match goal with
       | Hc : negb (StatusCode ?r =? StatusOK) = false |- _ =>
           apply negb_false_iff, Z.eqb_eq in Hc; by destruct (Hdo r eq_refl)
       end.
Qed.

End Download.

Hint Resolve DownloadFile_changes : touch.

(** ** Which files a run changes *)

Section RunChanges.

Variable E : Env.
Variable p : IWorkProcessor.

Lemma ConvertIWorkFile_changes (P : string -> Prop) (input output : string) :
  P output -> changesOnly P (ConvertIWorkFile E p input output).
Proof. intros HP. unfold ConvertIWorkFile. touch. Qed.

Lemma SaveFileWithMetadata_changes (P : string -> Prop)
    (orig conv : string) (metadata : FileInfo) :
  P conv -> changesOnly P (SaveFileWithMetadata E p orig conv metadata).
Proof. intros HP. unfold SaveFileWithMetadata. touch. Qed.

Lemma SaveFileWithMetadata_result (orig conv : string) (metadata : FileInfo)
    (w : World) :
  let r := SaveFileWithMetadata E p orig conv metadata w in
  r.1 = (conv, None) \/ exists e, r.1 = ("", Some e).
Proof.
  unfold SaveFileWithMetadata.
  generalize (metadataHeader metadata). intros header.
  unfold_prims. simpl. repeat case_match; simplify_eq/=; eauto.
Qed.

Lemma pathsOf_scratch (f : FileInfo) :
  pathsOf p f (filepath.Join [tempDir p; Name f]).
Proof. by left. Qed.

Lemma pathsOf_output (f : FileInfo) : pathsOf p f (outputPathOf p (Name f)).
Proof. by right. Qed.

Hint Resolve ConvertIWorkFile_changes SaveFileWithMetadata_changes
  pathsOf_scratch pathsOf_output : touch.

Lemma DownloadFile_downloadResult (bc : BoxClient) (fileID name temp : string)
    (w : World) :
  downloadResult (filepath.Join [temp; name])
    (DownloadFile E bc fileID name temp w).1.
Proof. apply DownloadFile_result. Qed.

Lemma processFile_changes (s : ProcessingSummary) (f : FileInfo) :
  changesOnly (pathsOf p f) (processFile E p s f).
Proof.
  unfold processFile.
  apply changesOnly_bind; [touch | intros _].
  apply changesOnly_bind; [touch | intros processStart].
  apply (changesOnly_bind_post _
           (downloadResult (filepath.Join [tempDir p; Name f]))).
  - apply DownloadFile_changes, pathsOf_scratch.
  - apply DownloadFile_downloadResult.
  - intros [localPath err] [Hr | [e Hr]]; simplify_eq; touch.
Qed.

Lemma forEach_changes (files : list FileInfo) (s : ProcessingSummary) :
  changesOnly (fun path => exists f, f ∈ files /\ pathsOf p f path)
    (forEach (processFile E p) files s).
Proof.
  apply changesOnly_forEach. intros s0 f Hin.
  apply (changesOnly_weaken (pathsOf p f)); [by eauto |].
  apply processFile_changes.
Qed.

Lemma ProcessFolder_changes (w : World) (path : string) :
  (forall f, f ∈ (listingAt E (boxClient p) (S (step w))).1 ->
             ~ pathsOf p f path) ->
  fs (ProcessFolder E p w).2 !! path = fs w !! path.
Proof.
  intros Hpath. pose proof (ProcessFolder_run E p w) as Hrun.
  destruct (listing_world E p w) as (H1 & H2 & _).
  destruct (GetIWorkFiles E (boxClient p) (tick w).2) as [[files lerr] w2].
  simpl in H1, H2. rewrite <- H1 in Hpath. simpl in Hpath, Hrun.
  destruct lerr as [e |]; [by rewrite Hrun; simpl; rewrite H2 |].
  destruct files as [|f files]; [by rewrite Hrun; simpl; rewrite H2 |].
  pose proof (forEach_changes (f :: files)
                (initSummary (Now E (step w)) (Z.of_nat (length (f :: files))))
                w2 path) as Hloop.
  destruct (forEach _ _ _ _) as [s3 w3]. rewrite Hrun. simpl in *.
  rewrite Hloop, H2; [done |].
  intros (g & Hg & Hp). by apply (Hpath g).
Qed.

Lemma GenerateReport_changes (s : ProcessingSummary) :
  changesOnly (fun path => exists n, path = reportPathAt (outputDir p) (Now E n))
    (GenerateReport E p s).
Proof.
  unfold GenerateReport.
  apply (changesOnly_bind_post _ (fun t => exists n, t = Now E n)).
  - touch.
  - intros w. by exists (step w).
  - intros now [n ->]. cbv zeta. destruct (MarshalIndent E s); [touch |].
    apply changesOnly_bind; [| intros ?; touch].
    apply os_WriteFile_changes. by exists n.
Qed.

Lemma afterProcessing_changes (output : string) (s : ProcessingSummary) :
  changesOnly (fun path => exists n, path = reportPathAt (outputDir p) (Now E n))
    (afterProcessing E p output s).
Proof.
  unfold afterProcessing.
  apply changesOnly_bind; [apply GenerateReport_changes |].
  intros [reportPath err]. apply changesOnly_keeps. frame.
Qed.

End RunChanges.

(** ** The listing *)

Section Listing.

Variable E : Env.



End Listing.




(** X3.  A download that returns no error was answered with status 200 and
    a body that ended cleanly; the path returned is the file name joined
    under the temp directory, the file at that path holds exactly the body
    (whatever was there before), and no other file has changed. *)
Theorem X3_download_stores_body (E : Env) (bc : BoxClient)
    (fileID name temp path : string) (w w' : World) :
  DownloadFile E bc fileID name temp w = ((path, None), w') ->
  exists resp,
    Do E (step w) (downloadRequest bc fileID) = inr resp
    /\ StatusCode resp = 200
    /\ BodyErr resp = None
    /\ path = filepath.Join [temp; name]
    /\ fs w' !! path = Some (Body resp)
    /\ forall other, other <> path -> fs w' !! other = fs w !! other.
Proof.
  intros Hrun.
  destruct (DownloadFile_success E bc fileID name temp w w' path Hrun)
    as (resp & Hdo & Hcode & Hbody & Hpath & Hfile).
  exists resp. repeat split; try done.
  intros other Hother.
  pose proof (DownloadFile_changes E bc (eq path) fileID name temp
                Hpath w other) as Hframe.
  rewrite Hrun in Hframe. apply Hframe. congruence.
Qed.

Lemma X3_download_stores_body_witness :
  let E := Sample.env (Sample.server (inr (Sample.ok "PAGES"))) [] in
  let w := Sample.worldWith {["temp/Doc1.pages" := "stale"; "notes.txt" := "keep"]} in
  let r := DownloadFile E (NewBoxClient "token" "0") "11" "Doc1.pages" "temp" w in
  exists resp,
    Do E (step w) (downloadRequest (NewBoxClient "token" "0") "11") = inr resp
    /\ StatusCode resp = 200
    /\ BodyErr resp = None
    /\ r.1.1 = "temp/Doc1.pages"
    /\ fs r.2 !! r.1.1 = Some (Body resp)
    /\ forall other, other <> r.1.1 -> fs r.2 !! other = fs w !! other.
Proof.
  intros E w r.
  apply (X3_download_stores_body E (NewBoxClient "token" "0") "11"
           "Doc1.pages" "temp" r.1.1 w r.2).
  vm_compute. reflexivity.
Defined.

(** X4.  A download that the server does not answer with status 200 (a
    refusal, or no answer at all) creates no file and changes none; it
    returns the empty path and an error. *)
Theorem X4_refused_download_writes_nothing (E : Env) (bc : BoxClient)
    (fileID name temp : string) (w : World) :
  (forall resp, Do E (step w) (downloadRequest bc fileID) = inr resp ->
                StatusCode resp <> 200) ->
  fs (DownloadFile E bc fileID name temp w).2 = fs w
  /\ exists e, (DownloadFile E bc fileID name temp w).1 = ("", Some e).
Proof. apply DownloadFile_refused. Qed.

Lemma X4_refused_download_witness :
  let E := Sample.env (fun _ => inr (Sample.status 404 "404 Not Found")) [] in
  let w := Sample.worldWith {["temp/Doc1.pages" := "stale"]} in
  fs (DownloadFile E (NewBoxClient "token" "0") "11" "Doc1.pages" "temp" w).2
  = fs w
  /\ exists e,
       (DownloadFile E (NewBoxClient "token" "0") "11" "Doc1.pages" "temp" w).1
       = ("", Some e).
Proof.
  intros E w.
  apply (X4_refused_download_writes_nothing E (NewBoxClient "token" "0")
           "11" "Doc1.pages" "temp" w).
  intros resp Hdo. vm_compute in Hdo. inversion Hdo. simpl. lia.
Defined.

(** X5.  [SaveFileWithMetadata] changes no file other than the converted
    file, and with an error it returns the empty path.  In text mode, when
    the converted file does not exist (the converter reported success but
    wrote nothing), it fails and changes nothing at all. *)
Theorem X5_enrichment_touches_one_file (E : Env) (p : IWorkProcessor)
    (orig conv : string) (metadata : FileInfo) (w : World) :
  let r := SaveFileWithMetadata E p orig conv metadata w in
  (forall other, other <> conv -> fs r.2 !! other = fs w !! other)
  /\ (r.1 = (conv, None) \/ exists e, r.1 = ("", Some e))
  /\ (format p = "txt" -> fs w !! conv = None ->
      fs r.2 = fs w /\ exists e, r.1 = ("", Some e)).
Proof.
  intros r. subst r. split; [| split].
  - intros other Hother.
    apply (SaveFileWithMetadata_changes E p (eq conv)); [done | congruence].
  - apply SaveFileWithMetadata_result.
  - intros Hfmt Hmissing. unfold SaveFileWithMetadata. rewrite Hfmt.
    generalize (metadataHeader metadata). intros header.
    unfold_prims. simpl. rewrite Hmissing.
    repeat case_match; simplify_eq/=; eauto.
Qed.

Lemma X5_enrichment_witness :
  let E := Sample.env Sample.offline [] in
  let w := Sample.worldWith {["notes.txt" := "keep"]} in
  let r := SaveFileWithMetadata E (Sample.processor "txt") "temp/Report.pages"
             "out/Report_extracted.txt" Sample.report w in
  fs r.2 = fs w /\ exists e, r.1 = ("", Some e).
Proof.
  intros E w r.
  destruct (X5_enrichment_touches_one_file E (Sample.processor "txt")
              "temp/Report.pages" "out/Report_extracted.txt" Sample.report w)
    as (_ & _ & Hmissing).
  apply Hmissing; vm_compute; reflexivity.
Defined.

(** X6.  A whole Box run changes (creates, rewrites or removes) no file
    other than the scratch files and output files of the candidates and
    the report: every other path holds after the run what it held
    before. *)
Theorem X6_run_changes_only_its_files (E : Env)
    (token folder output temp fmt : string) (w : World) (path : string) :
  let bc := NewBoxClient token folder in
  let p := NewIWorkProcessor bc temp output fmt in
  (forall f, f ∈ (listingAt E bc (S (step w))).1 ->
             path <> scratchPath p f /\ path <> outputPathOf p (Name f)) ->
  (forall n, path <> reportPathAt output (Now E n)) ->
  fs (mainBox E token folder output temp fmt w).2 !! path = fs w !! path.
Proof.
  intros bc p Hfiles Hreport.
  rewrite mainBox_unfold. fold bc. fold p.
  set (w0 := afterBanner folder fmt output w).
  assert (fs (ProcessFolder E p w0).2 !! path = fs w !! path) as Hfolder.
  { rewrite (ProcessFolder_changes E p w0 path); [done |].
    intros f Hf [Hs | Ho]; destruct (Hfiles f Hf); contradiction. }
  destruct (ProcessFolder E p w0) as [[summary [err |]] w1]; simpl in Hfolder.
  - exact Hfolder.
  - rewrite <- Hfolder.
    apply (afterProcessing_changes E p output summary w1 path).
    intros [n Hn]. by apply (Hreport n).
Qed.

Lemma X6_run_changes_only_its_files_witness :
  let E := withClock (Sample.env (Sample.server (inr (Sample.ok "PAGES")))
                        [Sample.doc1]) Sample.t0 in
  let w := Sample.worldWith {["notes.txt" := "keep"]} in
  fs (mainBox E "token" "0" "out" "temp" "txt" w).2 !! "notes.txt"
  = fs w !! "notes.txt".
Proof.
  intros E w.
  apply (X6_run_changes_only_its_files E "token" "0" "out" "temp" "txt" w
           "notes.txt").
  - intros f Hf. vm_compute in Hf.
    apply list_elem_of_singleton in Hf. subst f. split; vm_compute; discriminate.
  - intros n. vm_compute. discriminate.
Defined.

(** ** Cleaning up after a whole run *)

Section Cleanup.

Variable E : Env.
Variable p : IWorkProcessor.

Hypothesis remove_works : forall n path, RemoveFault E n path = None.

Lemma processFile_errors_grow (s : ProcessingSummary) (f : FileInfo) (w : World)
    (message : string) :
  message ∈ Errors s -> message ∈ Errors (processFile E p s f w).1.
Proof.
  intros Hin. destruct (processFile_outcome E p s f w) as (o & -> & _).
  destruct o as [record | failed]; simpl; [done |].
  apply elem_of_app. by left.
Qed.

Lemma processFile_cleaned (done : list FileInfo) (g : FileInfo)
    (s : ProcessingSummary) (w : World) :
  (forall f, f ∈ done -> scratchPath p f <> outputPathOf p (Name g)) ->
  cleaned p done s w ->
  cleaned p (done ++ [g]) (processFile E p s g w).1 (processFile E p s g w).2.
Proof.
  intros Hdisjoint Hinv f Hf.
  destruct (decide (scratchPath p f = scratchPath p g)) as [Heq | Hne].
  - rewrite Heq.
    destruct (scratch_removed_unless_download_failed E p s g w remove_works)
      as [Hgone | [e He]]; [by left |].
    right. exists g, e. split; [apply elem_of_app; right; by left |].
    split; [done |]. rewrite He. simpl. apply elem_of_app. right. by left.
  - apply elem_of_app in Hf as [Hf | Hf];
      [| apply list_elem_of_singleton in Hf; by subst].
    rewrite (processFile_changes E p s g w (scratchPath p f)).
    + destruct (Hinv f Hf) as [Hgone | (g' & e & Hg' & Hpath & Hmsg)];
        [by left |].
      right. exists g', e. split; [apply elem_of_app; by left |].
      split; [done |]. by apply processFile_errors_grow.
    + intros [Hs | Ho]; [done | by apply (Hdisjoint f Hf)].
Qed.

Lemma forEach_cleaned (files done : list FileInfo) (s : ProcessingSummary)
    (w : World) :
  (forall f g, f ∈ done ++ files -> g ∈ files ->
               scratchPath p f <> outputPathOf p (Name g)) ->
  cleaned p done s w ->
  cleaned p (done ++ files)
    (forEach (processFile E p) files s w).1
    (forEach (processFile E p) files s w).2.
Proof.
  revert done s w. induction files as [|g files IH]; intros done s w Hd Hinv.
  - simpl. by rewrite app_nil_r.
  - simpl. unfold bind.
    pose proof (processFile_cleaned done g s w) as Hstep.
    destruct (processFile E p s g w) as [s1 w1]. simpl in Hstep.
    replace (done ++ g :: files) with ((done ++ [g]) ++ files)
      by (by rewrite <- app_assoc).
    apply IH.
    + intros f h Hf Hh. apply Hd; [| by right].
      by rewrite <- app_assoc in Hf.
    + apply Hstep; [| done].
      intros f Hf. apply Hd; [apply elem_of_app; by left | by left].
Qed.

Lemma ProcessFolder_cleaned (w : World) (files : list FileInfo) :
  listingAt E (boxClient p) (S (step w)) = (files, None) ->
  (forall f g, f ∈ files -> g ∈ files ->
               scratchPath p f <> outputPathOf p (Name g)) ->
  cleaned p files (ProcessFolder E p w).1.1 (ProcessFolder E p w).2.
Proof.
  intros Hl Hd. pose proof (ProcessFolder_run E p w) as Hrun.
  destruct (listing_world E p w) as (H1 & _).
  destruct (GetIWorkFiles E (boxClient p) (tick w).2) as [[fl lerr] w2].
  simpl in H1. rewrite Hl in H1. simplify_eq.
  destruct files as [|f files]; [by intros g Hg%elem_of_nil |].
  pose proof (forEach_cleaned (f :: files) []
                (initSummary (Now E (step w)) (Z.of_nat (length (f :: files))))
                w2 Hd) as Hloop.
  cbv zeta in Hrun.
  destruct (forEach _ _ _ _) as [s3 w3]. rewrite Hrun.
  simpl in *. apply Hloop. by intros g Hg%elem_of_nil.
Qed.

End Cleanup.

(** X7.  When [os.Remove] does not fail and no scratch path is also an
    output path, a run leaves the scratch path of every candidate free,
    unless the summary holds a download failure for a candidate with that
    scratch path (the one case in which the code does not clean up). *)
Theorem X7_scratch_files_removed (E : Env) (p : IWorkProcessor) (w : World)
    (files : list FileInfo) (f : FileInfo) :
  (forall n path, RemoveFault E n path = None) ->
  listingAt E (boxClient p) (S (step w)) = (files, None) ->
  (forall f g, f ∈ files -> g ∈ files ->
               scratchPath p f <> outputPathOf p (Name g)) ->
  f ∈ files ->
  fs (ProcessFolder E p w).2 !! scratchPath p f = None
  \/ exists g e,
       g ∈ files /\ scratchPath p g = scratchPath p f
       /\ downloadFailure g e ∈ Errors (ProcessFolder E p w).1.1.
Proof.
  intros Hrm Hl Hd Hf. by apply (ProcessFolder_cleaned E p Hrm w files Hl Hd f).
Qed.

Lemma X7_scratch_files_removed_witness :
  let E := Sample.env (Sample.server (inr (Sample.ok "PAGES")))
             [Sample.doc1; Sample.doc2] in
  let p := Sample.processor "txt" in
  let files := (listingAt E (boxClient p) 1).1 in
  let f := {| ID := "11"; Name := "Doc1.pages"; Size := 1024;
              Extension := ".pages"; ModifiedAt := Sample.t0 |} in
  fs (ProcessFolder E p Sample.emptyWorld).2 !! scratchPath p f = None
  \/ exists g e,
       g ∈ files /\ scratchPath p g = scratchPath p f
       /\ downloadFailure g e
            ∈ Errors (ProcessFolder E p Sample.emptyWorld).1.1.
Proof.
  intros E p files f.
  apply (X7_scratch_files_removed E p Sample.emptyWorld files f).
  - reflexivity.
  - vm_compute. reflexivity.
  - intros f1 f2 H1 H2. vm_compute in H1, H2.
    apply list_elem_of_In in H1, H2. simpl in H1, H2.
    destruct H1 as [<- | [<- | []]]; destruct H2 as [<- | [<- | []]];
      vm_compute; discriminate.
  - vm_compute. left.
Defined.

(** ** Records of success *)

Section Records.

Variable E : Env.
Variable p : IWorkProcessor.

Lemma SaveFileWithMetadata_path (orig conv finalPath : string)
    (metadata : FileInfo) (w w' : World) :
  SaveFileWithMetadata E p orig conv metadata w = ((finalPath, None), w') ->
  finalPath = conv.
Proof.
  intros Hrun.
  destruct (SaveFileWithMetadata_result E p orig conv metadata w)
    as [Hr | [e Hr]]; rewrite Hrun in Hr; by simplify_eq/=.
Qed.

Lemma processFile_record (s : ProcessingSummary) (f : FileInfo) (w : World) :
  exists o,
    (processFile E p s f w).1 = applyOutcome s o
    /\ match o with
       | inl record => recordFor p f record
       | inr _ => True
       end.
Proof.
  unfold processFile. unfold_monad.
  repeat case_match; simplify_eq/=; try (by eexists (inr _)).
  eexists (inl _). split; [done |]. unfold recordFor. simpl.
  repeat split.
  by eapply SaveFileWithMetadata_path.
Qed.

Lemma forEach_records (files : list FileInfo) (s : ProcessingSummary) (w : World) :
  ProcessedFiles s = [] ->
  Forall (fun r => exists f, f ∈ files /\ recordFor p f r)
    (ProcessedFiles (forEach (processFile E p) files s w).1).
Proof.
  assert (forall done rest s w,
    Forall (fun r => exists f, f ∈ done /\ recordFor p f r) (ProcessedFiles s) ->
    Forall (fun r => exists f, f ∈ done ++ rest /\ recordFor p f r)
      (ProcessedFiles (forEach (processFile E p) rest s w).1)) as Hgen.
  { intros done rest. revert done.
    induction rest as [|g rest IH]; intros done s0 w0 Hs.
    - simpl. by rewrite app_nil_r.
    - simpl. unfold bind.
      destruct (processFile_record s0 g w0) as (o & Ho & Hrec).
      destruct (processFile E p s0 g w0) as [s1 w1]. simpl in Ho. subst s1.
      replace (done ++ g :: rest) with ((done ++ [g]) ++ rest)
        by (by rewrite <- app_assoc).
      apply IH. destruct o as [record | message]; simpl.
      + apply Forall_app. split.
        * eapply Forall_impl; [exact Hs |]. intros r (f & Hf & Hr).
          exists f. split; [apply elem_of_app; by left | done].
        * constructor; [| constructor].
          exists g. split; [apply elem_of_app; right; by left | done].
      + eapply Forall_impl; [exact Hs |]. intros r (f & Hf & Hr).
        exists f. split; [apply elem_of_app; by left | done]. }
  intros Hs. apply (Hgen [] files s w). rewrite Hs. constructor.
Qed.

End Records.

(** X8.  Every record of [ProcessedFiles] belongs to a candidate of the
    listing: it carries the name and the size of that candidate, and its
    output path is the path derived from that name and the format (the
    path the converter was given). *)
Theorem X8_records_name_their_output (E : Env) (p : IWorkProcessor) (w : World)
    (files : list FileInfo) :
  listingAt E (boxClient p) (S (step w)) = (files, None) ->
  Forall (fun r => exists f,
                     f ∈ files
                     /\ OriginalFile r = Name f
                     /\ OutputPath r = outputPathOf p (Name f)
                     /\ FileSize r = Size f)
    (ProcessedFiles (ProcessFolder E p w).1.1).
Proof.
  intros Hl. pose proof (ProcessFolder_run E p w) as Hrun.
  destruct (listing_world E p w) as (H1 & _).
  destruct (GetIWorkFiles E (boxClient p) (tick w).2) as [[fl lerr] w2].
  simpl in H1. rewrite Hl in H1. simplify_eq. cbv zeta in Hrun.
  destruct files as [|f files]; [rewrite Hrun; constructor |].
  pose proof (forEach_records E p (f :: files)
                (initSummary (Now E (step w)) (Z.of_nat (length (f :: files))))
                w2 eq_refl) as Hloop.
  destruct (forEach _ _ _ _) as [s3 w3]. rewrite Hrun. exact Hloop.
Qed.

Lemma X8_records_witness :
  let E := Sample.env (Sample.server (inr (Sample.ok "PAGES")))
             [Sample.doc1; Sample.doc2] in
  let p := Sample.processor "txt" in
  Forall (fun r => exists f,
                     f ∈ (listingAt E (boxClient p) 1).1
                     /\ OriginalFile r = Name f
                     /\ OutputPath r = outputPathOf p (Name f)
                     /\ FileSize r = Size f)
    (ProcessedFiles (ProcessFolder E p Sample.emptyWorld).1.1).
Proof.
  intros E p.
  apply (X8_records_name_their_output E p Sample.emptyWorld).
  vm_compute. reflexivity.
Defined.



(** X10.  [GenerateReport] changes no file other than the report, whose
    path is [processing_report_<stamp>.json] under the output directory for
    the clock reading it takes; when the summary cannot be marshalled it
    writes nothing and returns the empty path with the error wrapped. *)
Theorem X10_report_written_or_nothing (E : Env) (p : IWorkProcessor)
    (s : ProcessingSummary) (w : World) :
  let r := GenerateReport E p s w in
  let reportPath := reportPathAt (outputDir p) (Now E (step w)) in
  (forall other, other <> reportPath -> fs r.2 !! other = fs w !! other)
  /\ (r.1 = (reportPath, None) \/ exists e, r.1 = ("", Some e))
  /\ (r.1.2 = None -> exists data,
        MarshalIndent E s = inr data /\ fs r.2 !! reportPath = Some data)
  /\ (forall err, MarshalIndent E s = inl err ->
        r.1 = ("", Some (Errorf_w "failed to marshal report: " err))
        /\ fs r.2 = fs w).
Proof.
  intros r reportPath. subst r. unfold reportPathAt in reportPath.
  unfold GenerateReport, time_Now, os_WriteFile, bind, tick, ret, updFs,
    log_Print, setFs.
  cbv beta iota zeta. cbn [fs step sent logs stdout].
  fold reportPath. clearbody reportPath.
  destruct (MarshalIndent E s) as [err | data];
    cbv beta iota zeta; cbn [fst snd fs step sent logs stdout].
  - split; [done |]. split; [right; by eexists |].
    split; [intros Hnone; discriminate Hnone |].
    intros e He. by simplify_eq.
  - destruct (WriteFileFault E (S (step w)) reportPath) as [[e | k e] |];
      cbv beta iota zeta; cbn [fst snd fs step sent logs stdout].
    + split; [done |]. split; [right; by eexists |].
      split; [intros Hnone; discriminate Hnone | intros e0 He; discriminate He].
    + split; [intros other Hother; by apply lookup_insert_ne |].
      split; [right; by eexists |].
      split; [intros Hnone; discriminate Hnone | intros e0 He; discriminate He].
    + split; [intros other Hother; by apply lookup_insert_ne |].
      split; [by left |].
      split; [| intros e0 He; discriminate He].
      intros _. exists data. split; [done | apply lookup_insert_eq].
Qed.

Lemma X10_report_witness :
  let E := Sample.env Sample.offline [] in
  let r := GenerateReport E (Sample.processor "txt")
             (initSummary Sample.t0 0) Sample.emptyWorld in
  exists data,
    MarshalIndent E (initSummary Sample.t0 0) = inr data
    /\ fs r.2 !! reportPathAt "out" (Now E 0%nat) = Some data.
Proof.
  intros E r.
  destruct (X10_report_written_or_nothing E (Sample.processor "txt")
              (initSummary Sample.t0 0) Sample.emptyWorld) as (_ & _ & H & _).
  apply H. vm_compute. reflexivity.
Defined.

(** ** The command line *)

Section CommandLineFacts.

Variable E : Env.
Variable H : Host.

Lemma setupDirectories_keeps_fs (temp output : string) :
  keeps fs (setupDirectories H temp output).
Proof. unfold setupDirectories, mkdirEach, os_MkdirAll. frame. Qed.

Lemma setupDirectories_keeps_sent (temp output : string) :
  keeps sent (setupDirectories H temp output).
Proof. unfold setupDirectories, mkdirEach, os_MkdirAll. frame. Qed.

(** [main] in Box mode once the token is known and the format is valid. *)
Lemma main_box_valid (fl : Flags) (w : World) :
  flagHelp fl = false ->
  flagBox fl = true ->
  flagOrEnv H (flagToken fl) "BOX_ACCESS_TOKEN" <> "" ->
  flagFormat fl = "txt" \/ flagFormat fl = "html" ->
  let token := flagOrEnv H (flagToken fl) "BOX_ACCESS_TOKEN" in
  let folder := orDefault (flagOrEnv H (flagFolder fl) "BOX_FOLDER_ID") "0" in
  let output := orDefault (flagOrEnv H (flagOutput fl) "OUTPUT_DIR") "./extracted" in
  let temp := orDefault (flagOrEnv H (flagTemp fl) "TEMP_DIR") "./temp" in
  main E H fl w
  = match setupDirectories H temp output w with
    | (Some err, w1) =>
        (Exited 1, (log_Print ("Failed to setup directories: " +:+ Error err) w1).2)
    | (None, w1) => mainBox E token folder output temp (flagFormat fl) w1
    end.
Proof.
  intros Hhelp Hbox Htoken Hfmt token folder output temp.
  unfold main. rewrite Hhelp, Hbox. fold token folder output temp.
  apply String.eqb_neq in Htoken. fold token in Htoken. rewrite Htoken.
  assert (negb (String.eqb (flagFormat fl) "txt")
          && negb (String.eqb (flagFormat fl) "html") = false) as ->.
  { destruct Hfmt as [-> | ->]; reflexivity. }
  unfold bind at 1.
  destruct (setupDirectories H temp output w) as [[err |] w1]; reflexivity.
Qed.

End CommandLineFacts.

(** X11.  In Box mode without a token (neither the flag nor the variable
    [BOX_ACCESS_TOKEN] gives one) [main] prints an error and the usage and
    returns: it creates no directory, sends no request and changes no
    file. *)
Theorem X11_missing_token_stops (E : Env) (H : Host) (fl : Flags) (w : World) :
  flagHelp fl = false ->
  flagBox fl = true ->
  flagToken fl = "" ->
  Getenv H "BOX_ACCESS_TOKEN" = "" ->
  main E H fl w
  = (Returned,
     {| fs := fs w; step := step w; sent := sent w; logs := logs w;
        stdout :=
          stdout w
            ++ ["Error: Box access token required. Use -token flag or BOX_ACCESS_TOKEN environment variable."
                  +:+ Str.nl;
                usageText (progName H)] |}).
Proof.
  intros Hhelp Hbox Hflag Henv.
  unfold main, flagOrEnv. rewrite Hhelp, Hbox, Hflag.
  change (String.eqb "" "") with true. cbv iota. rewrite Henv.
  change (String.eqb "" "") with true. cbv iota.
  unfold showUsage, bind, fmt_Print, ret. cbv beta iota.
  cbn [fs step sent logs stdout]. by rewrite <- app_assoc.
Qed.

(** X12.  In Box mode a format other than [txt] and [html] makes [main]
    print an error and return before anything else happens: no directory
    is created, no request is sent, no file changes. *)
Theorem X12_invalid_format_stops (E : Env) (H : Host) (fl : Flags) (w : World) :
  flagHelp fl = false ->
  flagBox fl = true ->
  flagOrEnv H (flagToken fl) "BOX_ACCESS_TOKEN" <> "" ->
  flagFormat fl <> "txt" ->
  flagFormat fl <> "html" ->
  main E H fl w
  = (Returned,
     {| fs := fs w; step := step w; sent := sent w; logs := logs w;
        stdout :=
          stdout w
            ++ ["Error: Invalid format '" +:+ flagFormat fl
                  +:+ "'. Must be 'txt' or 'html'." +:+ Str.nl] |}).
Proof.
  intros Hhelp Hbox Htoken Htxt Hhtml.
  apply String.eqb_neq in Htoken, Htxt, Hhtml.
  unfold main. rewrite Hhelp, Hbox, Htoken, Htxt, Hhtml. reflexivity.
Qed.

(** X13.  In Box mode with a valid configuration, when the temp directory
    or (after it) the output directory cannot be created, [main] logs the
    failure with the name of that directory and exits with status 1; it
    has sent no request and changed no file, and after a failure for the
    temp directory the output directory is not tried. *)
Theorem X13_setup_failure_exits (E : Env) (H : Host) (fl : Flags) (w : World)
    (dir : string) (e : error) :
  let output := orDefault (flagOrEnv H (flagOutput fl) "OUTPUT_DIR") "./extracted" in
  let temp := orDefault (flagOrEnv H (flagTemp fl) "TEMP_DIR") "./temp" in
  flagHelp fl = false ->
  flagBox fl = true ->
  flagOrEnv H (flagToken fl) "BOX_ACCESS_TOKEN" <> "" ->
  flagFormat fl = "txt" \/ flagFormat fl = "html" ->
  (MkdirAll H (step w) temp = Some e /\ dir = temp)
  \/ (MkdirAll H (step w) temp = None
      /\ MkdirAll H (S (step w)) output = Some e /\ dir = output) ->
  let r := main E H fl w in
  r.1 = Exited 1
  /\ fs r.2 = fs w
  /\ sent r.2 = sent w
  /\ logs r.2
     = logs w
         ++ ["Failed to setup directories: failed to create directory "
               +:+ dir +:+ ": " +:+ Error e]
  /\ step r.2
     = match MkdirAll H (step w) temp with
       | Some _ => S (step w)
       | None => S (S (step w))
       end.
Proof.
  intros output temp Hhelp Hbox Htoken Hfmt Hmk r. subst r.
  rewrite (main_box_valid E H fl w Hhelp Hbox Htoken Hfmt).
  fold output temp.
  unfold setupDirectories, mkdirEach, os_MkdirAll, bind, tick, ret.
  cbv beta iota. cbn [fs step sent logs stdout].
  destruct Hmk as [[Ht ->] | (Ht & Ho & ->)].
  - rewrite Ht. cbv beta iota. cbn [fst snd log_Print fs step sent logs stdout].
    unfold Errorf_w. cbn [Error].
    rewrite !append_assoc. by repeat split.
  - rewrite Ht. cbv beta iota. cbn [fs step sent logs stdout].
    rewrite Ho. cbv beta iota. cbn [fst snd log_Print fs step sent logs stdout].
    unfold Errorf_w. cbn [Error]. rewrite !append_assoc.
    by repeat split.
Qed.

Lemma X11_missing_token_witness :
  let E := Sample.env Sample.offline [] in
  (main E (Cli.host ["-box"]) (Cli.box "" "txt") Sample.emptyWorld).1 = Returned
  /\ sent (main E (Cli.host ["-box"]) (Cli.box "" "txt") Sample.emptyWorld).2 = [].
Proof.
  intros E.
  rewrite (X11_missing_token_stops E (Cli.host ["-box"]) (Cli.box "" "txt")
             Sample.emptyWorld); [by split | reflexivity ..].
Defined.

Lemma X12_invalid_format_witness :
  let E := Sample.env Sample.offline [] in
  let r := main E (Cli.host ["-box"]) (Cli.box "token" "pdf") Sample.emptyWorld in
  r.1 = Returned /\ step r.2 = 0%nat /\ sent r.2 = []
  /\ stdout r.2 = ["Error: Invalid format 'pdf'. Must be 'txt' or 'html'." +:+ Str.nl].
Proof.
  intros E r. subst r.
  rewrite (X12_invalid_format_stops E (Cli.host ["-box"]) (Cli.box "token" "pdf")
             Sample.emptyWorld); [by repeat split | reflexivity | reflexivity | ..];
    vm_compute; discriminate.
Defined.

Lemma X13_setup_failure_witness :
  let E := Sample.env Sample.offline [] in
  let r := main E (Cli.readOnlyHost ["-box"]) (Cli.box "token" "txt")
             Sample.emptyWorld in
  r.1 = Exited 1 /\ fs r.2 = ∅ /\ sent r.2 = [] /\ step r.2 = 1%nat.
Proof.
  intros E r.
  destruct (X13_setup_failure_exits E (Cli.readOnlyHost ["-box"])
              (Cli.box "token" "txt") Sample.emptyWorld "./temp"
              (libError "mkdir ./temp: permission denied"))
    as (H1 & H2 & H3 & _ & H5).
  - reflexivity.
  - reflexivity.
  - vm_compute. discriminate.
  - by left.
  - left. by split.
  - by repeat split.
Defined.

(** X14.  With only [-box], a token and a valid format given, and the
    variables [BOX_FOLDER_ID], [OUTPUT_DIR] and [TEMP_DIR] unset, [main]
    creates [./temp] and then [./extracted] and processes the root folder
    [0] with these directories. *)
Theorem X14_defaults (E : Env) (H : Host) (fl : Flags) (w : World) :
  flagHelp fl = false ->
  flagBox fl = true ->
  flagToken fl <> "" ->
  flagFormat fl = "txt" \/ flagFormat fl = "html" ->
  flagFolder fl = "" -> flagOutput fl = "" -> flagTemp fl = "" ->
  Getenv H "BOX_FOLDER_ID" = "" ->
  Getenv H "OUTPUT_DIR" = "" ->
  Getenv H "TEMP_DIR" = "" ->
  MkdirAll H (step w) "./temp" = None ->
  MkdirAll H (S (step w)) "./extracted" = None ->
  main E H fl w
  = mainBox E (flagToken fl) "0" "./extracted" "./temp" (flagFormat fl)
      {| fs := fs w; step := S (S (step w)); sent := sent w; logs := logs w;
         stdout := stdout w |}.
Proof.
  intros Hhelp Hbox Htoken Hfmt Hfolder Hout Htemp Hef Heo Het Hm1 Hm2.
  assert (flagOrEnv H (flagToken fl) "BOX_ACCESS_TOKEN" = flagToken fl) as Htok.
  { unfold flagOrEnv. apply String.eqb_neq in Htoken. by rewrite Htoken. }
  rewrite (main_box_valid E H fl w Hhelp Hbox); [| by rewrite Htok | done].
  rewrite Htok. unfold flagOrEnv. rewrite Hfolder, Hout, Htemp.
  change (String.eqb "" "") with true. cbv iota. rewrite Hef, Heo, Het.
  unfold orDefault. change (String.eqb "" "") with true. cbv iota.
  unfold setupDirectories, mkdirEach, os_MkdirAll, bind, tick, ret.
  cbv beta iota. cbn [fs step sent logs stdout].
  rewrite Hm1. cbv beta iota. cbn [fs step sent logs stdout].
  rewrite Hm2. reflexivity.
Qed.

Lemma X14_defaults_witness :
  let E := Sample.env (Sample.server (inr (Sample.ok "PAGES"))) [Sample.doc1] in
  main E (Cli.host ["-box"]) (Cli.box "token" "txt") Sample.emptyWorld
  = mainBox E "token" "0" "./extracted" "./temp" "txt"
      {| fs := ∅; step := 2; sent := []; logs := []; stdout := [] |}.
Proof.
  intros E.
  apply (X14_defaults E (Cli.host ["-box"]) (Cli.box "token" "txt")
           Sample.emptyWorld); try reflexivity.
  - vm_compute. discriminate.
  - by left.
Defined.

(** X15.  A flag that is given wins over the environment, and the
    environment is used for a flag that is not given: with token, folder,
    output and temp directory all given as flags the environment plays no
    part; with none of them given and all four variables set, the values of
    the variables are used. *)
Theorem X15_flags_then_environment (E : Env) (H : Host) (fl : Flags) (w : World) :
  flagHelp fl = false ->
  flagBox fl = true ->
  flagFormat fl = "txt" \/ flagFormat fl = "html" ->
  (flagToken fl <> "" -> flagFolder fl <> "" ->
   flagOutput fl <> "" -> flagTemp fl <> "" ->
   (setupDirectories H (flagTemp fl) (flagOutput fl) w).1 = None ->
   main E H fl w
   = mainBox E (flagToken fl) (flagFolder fl) (flagOutput fl) (flagTemp fl)
       (flagFormat fl)
       (setupDirectories H (flagTemp fl) (flagOutput fl) w).2)
  /\ (flagToken fl = "" -> flagFolder fl = "" ->
      flagOutput fl = "" -> flagTemp fl = "" ->
      Getenv H "BOX_ACCESS_TOKEN" <> "" -> Getenv H "BOX_FOLDER_ID" <> "" ->
      Getenv H "OUTPUT_DIR" <> "" -> Getenv H "TEMP_DIR" <> "" ->
      (setupDirectories H (Getenv H "TEMP_DIR") (Getenv H "OUTPUT_DIR") w).1 = None ->
      main E H fl w
      = mainBox E (Getenv H "BOX_ACCESS_TOKEN") (Getenv H "BOX_FOLDER_ID")
          (Getenv H "OUTPUT_DIR") (Getenv H "TEMP_DIR") (flagFormat fl)
          (setupDirectories H (Getenv H "TEMP_DIR") (Getenv H "OUTPUT_DIR") w).2).
Proof.
  intros Hhelp Hbox Hfmt. split.
  - intros Ht Hf Ho Hs Hsetup.
    apply String.eqb_neq in Ht, Hf, Ho, Hs.
    rewrite (main_box_valid E H fl w Hhelp Hbox);
      [| unfold flagOrEnv; rewrite Ht; by apply String.eqb_neq | done].
    unfold flagOrEnv, orDefault. rewrite Ht, Hf, Ho, Hs, Hf, Ho, Hs.
    destruct (setupDirectories H (flagTemp fl) (flagOutput fl) w) as [[err |] w1];
      [discriminate Hsetup | reflexivity].
  - intros Ht Hf Ho Hs Het Hef Heo Hes Hsetup.
    apply String.eqb_neq in Hef, Heo, Hes.
    rewrite (main_box_valid E H fl w Hhelp Hbox);
      [| unfold flagOrEnv; rewrite Ht; exact Het | done].
    unfold flagOrEnv, orDefault. rewrite Ht, Hf, Ho, Hs.
    change (String.eqb "" "") with true. cbv iota. rewrite Hef, Heo, Hes.
    destruct (setupDirectories H _ _ w) as [[err |] w1];
      [discriminate Hsetup | reflexivity].
Qed.

Lemma X15_flags_then_environment_witness :
  let E := Sample.env (Sample.server (inr (Sample.ok "PAGES"))) [Sample.doc1] in
  main E Cli.configuredHost Cli.explicit Sample.emptyWorld
  = mainBox E "t" "7" "o" "s" "html"
      (setupDirectories Cli.configuredHost "s" "o" Sample.emptyWorld).2
  /\ main E Cli.configuredHost (Cli.box "" "txt") Sample.emptyWorld
     = mainBox E "env-token" "42" "env-out" "env-temp" "txt"
         (setupDirectories Cli.configuredHost "env-temp" "env-out"
            Sample.emptyWorld).2.
Proof.
  intros E. split.
  - destruct (X15_flags_then_environment E Cli.configuredHost Cli.explicit
                Sample.emptyWorld) as [Hflags _];
      [reflexivity | reflexivity | by right |].
    apply Hflags; try reflexivity; vm_compute; discriminate.
  - destruct (X15_flags_then_environment E Cli.configuredHost (Cli.box "" "txt")
                Sample.emptyWorld) as [_ Henv];
      [reflexivity | reflexivity | by left |].
    apply Henv; try reflexivity; vm_compute; discriminate.
Defined.

(** X16.  Without [-help] and [-box], and with at least two further
    arguments, [main] converts the first to the second: with the text
    converter exactly when the second ends in [.txt] (in lower case), with
    the HTML converter otherwise.  A converter error ends the program with
    status 2; no request is sent, and no file other than the destination
    changes. *)
Theorem X16_single_file_mode (E : Env) (H : Host) (fl : Flags) (w : World)
    (input output : string) (rest : list string) :
  flagHelp fl = false ->
  flagBox fl = false ->
  argsRest H = input :: output :: rest ->
  let convert :=
    if HasSuffix output ".txt" then text_Convert E else html_Convert E in
  let c := convert (step w) input output (fs w !! input) in
  let r := main E H fl w in
  r.1 = match convErr c with Some _ => Exited 2 | None => Returned end
  /\ fs r.2 = match written c with
              | Some data => <[output := data]> (fs w)
              | None => fs w
              end
  /\ sent r.2 = sent w
  /\ stdout r.2 = stdout w.
Proof.
  intros Hhelp Hbox Hargs convert c r. subst r c convert.
  unfold main. rewrite Hhelp, Hbox. unfold singleFile. rewrite Hargs.
  unfold run_Convert. unfold_monad.
  destruct (HasSuffix output ".txt"); simpl;
    repeat case_match; simplify_eq/=; by repeat split.
Qed.

Lemma X16_single_file_mode_witness :
  let E := Sample.env Sample.offline [] in
  let w := Sample.worldWith {["in.pages" := "PAGES"]} in
  let upper := main E (Cli.host ["in.pages"; "OUT.TXT"]) Cli.none w in
  let lower := main E (Cli.host ["in.pages"; "out.txt"]) Cli.none w in
  fs upper.2 !! "OUT.TXT" = Some "<p>Hello</p>"
  /\ fs lower.2 !! "out.txt" = Some "Hello"
  /\ lower.1 = Returned /\ sent lower.2 = [].
Proof.
  intros E w upper lower.
  destruct (X16_single_file_mode E (Cli.host ["in.pages"; "OUT.TXT"]) Cli.none w
              "in.pages" "OUT.TXT" []) as (_ & Hup & _); try reflexivity.
  destruct (X16_single_file_mode E (Cli.host ["in.pages"; "out.txt"]) Cli.none w
              "in.pages" "out.txt" []) as (Hend & Hlow & Hsent & _);
    try reflexivity.
  subst upper lower. rewrite Hup, Hlow, Hend, Hsent.
  repeat split; vm_compute; reflexivity.
Defined.

(** X17.  With [-help], whatever else is given, and without [-box] when
    fewer than two further arguments are given, [main] prints the usage
    text for the program name and returns; nothing else happens. *)
Theorem X17_usage_only (E : Env) (H : Host) (fl : Flags) (w : World) :
  flagHelp fl = true
  \/ (flagBox fl = false /\ (length (argsRest H) < 2)%nat) ->
  main E H fl w
  = (Returned,
     {| fs := fs w; step := step w; sent := sent w; logs := logs w;
        stdout := stdout w ++ [usageText (progName H)] |}).
Proof.
  intros [Hhelp | [Hbox Hargs]]; unfold main.
  - by rewrite Hhelp.
  - rewrite Hbox. destruct (flagHelp fl); [done |].
    unfold singleFile.
    destruct (argsRest H) as [|a [|b rest]]; [done | done |].
    simpl in Hargs. lia.
Qed.

Lemma X17_usage_only_witness :
  let E := Sample.env Sample.offline [] in
  (main E (Cli.host ["in.pages"]) Cli.none Sample.emptyWorld).1 = Returned
  /\ sent (main E (Cli.host ["in.pages"]) Cli.none Sample.emptyWorld).2 = [].
Proof.
  intros E.
  rewrite (X17_usage_only E (Cli.host ["in.pages"]) Cli.none Sample.emptyWorld).
  - by split.
  - right. split; [reflexivity | simpl; lia].
Defined.
